(** * NetROM transport (package netrom): address codec, socket handle,
      connection and listener, embedded from netrom.go and netrom_linux.go. *)

From Stdlib Require Import ZArith Lia Ascii String List Bool.
From stdpp Require Import base option list gmap.
Import ListNotations.

Local Open Scope string_scope.
Local Open Scope Z_scope.

(** ** Go values *)

(** What running a Go function gives: its results, or a run-time panic. *)
Inductive outcome (A : Type) : Type :=
| Ret (a : A)
| Panic (msg : string).
Arguments Ret {A} a.
Arguments Panic {A} msg.

(** Integer conversions, wrap-around written out. *)
Definition uint8 (z : Z) : Z := z mod 256.
Definition uint64 (z : Z) : Z := z mod 2 ^ 64.
Definition int64 (z : Z) : Z := (z + 2 ^ 63) mod 2 ^ 64 - 2 ^ 63.

Definition byte_of (c : ascii) : Z := Z.of_N (N_of_ascii c).
Definition char_of (b : Z) : ascii := ascii_of_N (Z.to_N b).

(** ** Package strings *)

(** [strings.Split(s, sep)] for a one-byte separator: the substrings between
    the occurrences of [sep], in order; never empty. *)
Fixpoint strings_Split (s : string) (sep : ascii) : list string :=
  match s with
  | EmptyString => [EmptyString]
  | String c s' =>
      if Ascii.eqb c sep then EmptyString :: strings_Split s' sep
      else match strings_Split s' sep with
           | h :: t => String c h :: t
           | [] => [String c EmptyString]
           end
  end.

(** ** Package strconv *)

Inductive NumErr : Type := ErrSyntax | ErrRange | ErrBase | ErrBitSize.

Definition NumErr_eqb (a b : NumErr) : bool :=
  match a, b with
  | ErrSyntax, ErrSyntax | ErrRange, ErrRange
  | ErrBase, ErrBase | ErrBitSize, ErrBitSize => true
  | _, _ => false
  end.

Definition maxUint64 : Z := 2 ^ 64 - 1.

(** [lower(c)] of strconv: [c | ('x' - 'X')]. *)
Definition lower (c : Z) : Z := Z.lor c 32.

(** The digit a byte stands for, [None] where ParseUint's switch takes its
    default branch. *)
Definition digit_val (c : Z) : option Z :=
  if (48 <=? c) && (c <=? 57) then Some (c - 48)
  else if (97 <=? lower c) && (lower c <=? 122) then Some (lower c - 97 + 10)
  else None.

(** The loop of [strconv.ParseUint] over the bytes of the string. *)
Fixpoint ParseUint_loop (base cutoff maxVal : Z) (n : Z) (s : string)
  : Z * option NumErr :=
  match s with
  | EmptyString => (n, None)
  | String c s' =>
      match digit_val (byte_of c) with
      | None => (0, Some ErrSyntax)
      | Some d =>
          if d >=? base then (0, Some ErrSyntax)
          else if n >=? cutoff then (maxVal, Some ErrRange)
          else
            let n0 := uint64 (n * base) in
            let n1 := uint64 (n0 + d) in
            if (n1 <? n0) || (n1 >? maxVal) then (maxVal, Some ErrRange)
            else ParseUint_loop base cutoff maxVal n1 s'
      end
  end.

(** [strconv.ParseUint(s, base, bitSize)] for an explicit base (2..36); the
    prefix-driven base 0 is not used by this package and not modelled. *)
Definition ParseUint (s : string) (base bitSize : Z) : Z * option NumErr :=
  match s with
  | EmptyString => (0, Some ErrSyntax)
  | _ =>
      if negb ((2 <=? base) && (base <=? 36)) then (0, Some ErrBase)
      else if (bitSize <? 1) || (bitSize >? 64) then (0, Some ErrBitSize)
      else
        let cutoff := maxUint64 / base + 1 in
        let maxVal := 2 ^ bitSize - 1 in
        ParseUint_loop base cutoff maxVal 0 s
  end.

(** [strconv.ParseInt(s, base, bitSize)]. *)
Definition ParseInt (s : string) (base bitSize : Z) : Z * option NumErr :=
  match s with
  | EmptyString => (0, Some ErrSyntax)
  | String c0 rest =>
      let '(neg, s1) :=
        if byte_of c0 =? 43 then (false, rest)
        else if byte_of c0 =? 45 then (true, rest)
        else (false, s) in
      let '(un, err) := ParseUint s1 base bitSize in
      let bad := match err with
                 | Some e => negb (NumErr_eqb e ErrRange)
                 | None => false
                 end in
      if bad then (0, err)
      else
        let cutoff := 2 ^ (bitSize - 1) in
        if negb neg && (un >=? cutoff) then (cutoff - 1, Some ErrRange)
        else if neg && (un >? cutoff) then (- cutoff, Some ErrRange)
        else
          let n := int64 un in
          (if neg then - n else n, None)
  end.

(** Decimal rendering, as [%d] of package fmt renders an unsigned integer:
    digits are produced from the least significant one. *)
Fixpoint formatBits (fuel : nat) (u : Z) (acc : string) : string :=
  match fuel with
  | O => acc
  | S fuel' =>
      let acc' := String (char_of (48 + u mod 10)) acc in
      if u <? 10 then acc' else formatBits fuel' (u / 10) acc'
  end.

Definition FormatUint (u : Z) : string := formatBits 20 u EmptyString.

(** ** Address codec (netrom.go) *)

Record Address : Type := mkAddress {
  Call : string;
  SSID : Z  (* uint8 *)
}.

Definition dash : ascii := "-"%char.

Definition AddressFromString (str : string) : outcome Address :=
  let parts := strings_Split str dash in
  match parts with
  | [] => Panic "index out of range"
  | p0 :: rest =>
      let addr := {| Call := p0; SSID := 0 |} in
      if (1 <? Z.of_nat (length parts)) then
        match rest with
        | [] => Panic "index out of range"
        | p1 :: _ =>
            let '(ssid, err) := ParseInt p1 10 32 in
            match err with
            | None =>
                if (ssid >=? 0) && (ssid <=? 255)
                then Ret {| Call := Call addr; SSID := uint8 ssid |}
                else Ret addr
            | Some _ => Ret addr
            end
        end
      else Ret addr
  end.

Definition Address_String (a : Address) : string :=
  if SSID a >? 0 then Call a ++ "-" ++ FormatUint (SSID a)
  else Call a.

(** ** Go error values *)

Inductive error : Type :=
| Errno (e : Z)                               (* syscall.Errno *)
| errorString (s : string)                    (* errors.New, fmt.Errorf *)
| PathError (Op Path : string) (Err : error)  (* *os.PathError *)
| SyscallError (Syscall : string) (Err : error). (* *os.SyscallError *)

(** Errno constants of package syscall on linux. *)
Definition EINTR : Z := 4.
Definition EBADF : Z := 9.
Definition EINVAL : Z := 22.
Definition EMSGSIZE : Z := 90.
Definition EADDRINUSE : Z := 98.
Definition ENOTCONN : Z := 107.
Definition ETIMEDOUT : Z := 110.
Definition ECONNREFUSED : Z := 111.
Definition EALREADY : Z := 114.
Definition EINPROGRESS : Z := 115.

Definition AF_NETROM : Z := 6.
Definition SOCK_SEQPACKET : Z := 5.
Definition SOMAXCONN : Z := 128.
Definition SOL_SOCKET : Z := 1.
Definition SO_ERROR : Z := 4.

(** The message table [errors] of package syscall (linux), for the error
    numbers a socket of this package can meet; its other entries are left out
    and fall to the "errno N" rendering. *)
Definition errors (e : Z) : string :=
  match e with
  | 4 => "interrupted system call"
  | 9 => "bad file descriptor"
  | 11 => "resource temporarily unavailable"
  | 22 => "invalid argument"
  | 32 => "broken pipe"
  | 90 => "message too long"
  | 98 => "address already in use"
  | 99 => "cannot assign requested address"
  | 100 => "network is down"
  | 101 => "network is unreachable"
  | 104 => "connection reset by peer"
  | 106 => "transport endpoint is already connected"
  | 107 => "transport endpoint is not connected"
  | 110 => "connection timed out"
  | 111 => "connection refused"
  | 113 => "no route to host"
  | 114 => "operation already in progress"
  | 115 => "operation now in progress"
  | _ => ""
  end.

(** [syscall.Errno.Error]. *)
Definition Errno_Error (e : Z) : string :=
  match errors e with
  | EmptyString => "errno " ++ FormatUint e
  | s => s
  end.

(** The [Error] method of an error value. *)
Fixpoint Error (e : error) : string :=
  match e with
  | Errno n => Errno_Error n
  | errorString s => s
  | PathError op path err => op ++ " " ++ path ++ ": " ++ Error err
  | SyscallError sc err => sc ++ ": " ++ Error err
  end.

(** [err == syscall.E...]: the interface value holds that Errno. *)
Definition is_errno (err : option error) (e : Z) : bool :=
  match err with
  | Some (Errno x) => x =? e
  | _ => false
  end.

Definition is_nil {A : Type} (x : option A) : bool :=
  match x with
  | None => true
  | Some _ => false
  end.

Definition io_EOF : error := errorString "EOF".
Definition io_ErrShortWrite : error := errorString "short write".

Definition ErrMessageTooLong : error :=
  errorString "Write: Message too long. Consider increasing maximum packet length to >= 125.".
Definition ErrPortNotExist : error := errorString "No such NR port found".

(** ** The environment: kernel, libax25 and channels *)

(** [C.struct_full_sockaddr_ax25] (netax25/ax25.h). *)
Record ax25Addr : Type := mkAx25Addr {
  sax25_family : Z;
  sax25_call : list Z;
  sax25_ndigis : Z;
  fsa_digipeater : list (list Z)
}.

(** [unsafe.Sizeof] of an [ax25Addr]. *)
Definition sizeof_ax25Addr : Z := 72.

Definition zero_ax25Addr : ax25Addr :=
  {| sax25_family := 0; sax25_call := []; sax25_ndigis := 0;
     fsa_digipeater := [] |}.

(** [syscall.FdSet]: [Bits [16]int64]. *)
Definition FdSet : Type := list Z.

Definition new_FdSet : FdSet := replicate 16 0.

(** The calls this package makes out of Go: system calls and libax25. *)
Inductive ExtCall : Type :=
| SysSocket (domain typ proto : Z)
| SysBind (fd : Z) (a : ax25Addr)
| SysListen (fd backlog : Z)
| SysConnect (fd : Z) (a : ax25Addr)
| SysAccept (fd : Z)
| SysSetNonblock (fd : Z) (nonblocking : bool)
| SysSelect (nfd : Z) (r w e : option FdSet) (timeout : option (Z * Z))
| SysGetsockoptInt (fd level opt : Z)
| SysClose (fd : Z)
| SysPipe
| SysRead (fd : Z) (len : nat)
| SysWrite (fd : Z) (data : list Z)
| LibLoadPorts
| LibGetDev (port : string)
| LibGetAddr (port : string)
| LibAton (s : string)
| LibNtoa (call : list Z).

(** What a call gives back; each call reads the fields it has. *)
Record Reply : Type := mkReply {
  r_n : Z;                (* the integer (or pointer) result *)
  r_err : option error;   (* the error result (errno) *)
  r_n2 : Z;               (* pipe: the write end; accept: the address length *)
  r_rfds : FdSet;         (* select: the read set on return *)
  r_wfds : FdSet;         (* select: the write set on return *)
  r_addr : ax25Addr;      (* accept, ax25_aton: the address filled in *)
  r_data : list Z;        (* read: the bytes *)
  r_str : string          (* a C string result *)
}.

Definition ok_reply (n : Z) : Reply :=
  {| r_n := n; r_err := None; r_n2 := 0; r_rfds := new_FdSet;
     r_wfds := new_FdSet; r_addr := zero_ax25Addr; r_data := [];
     r_str := EmptyString |}.

Definition err_reply (n : Z) (e : Z) : Reply :=
  {| r_n := n; r_err := Some (Errno e); r_n2 := 0; r_rfds := new_FdSet;
     r_wfds := new_FdSet; r_addr := zero_ax25Addr; r_data := [];
     r_str := EmptyString |}.

(** The state a run goes through.  [kernel] is how the environment answers a
    call, given the calls made before it (latest first); [trace] are the
    calls made so far (latest first); [open_fds] the descriptors this process
    holds open; [chans] the channels made, [true] once closed; [numNRPorts]
    the package variable. *)
Record World : Type := mkWorld {
  kernel : list ExtCall -> ExtCall -> Reply;
  trace : list ExtCall;
  open_fds : gset Z;
  chans : list bool;
  numNRPorts : Z
}.

(** A channel value: [None] is the nil channel. *)
Definition chan : Type := option nat.

Inductive result (A : Type) : Type :=
| Done (a : A)
| Panicked (msg : string)
| NoFuel.
Arguments Done {A} a.
Arguments Panicked {A} msg.
Arguments NoFuel {A}.

Definition M (A : Type) : Type := World -> result A * World.

Definition ret {A : Type} (a : A) : M A := fun w => (Done a, w).

Definition bind {A B : Type} (m : M A) (k : A -> M B) : M B :=
  fun w =>
    match m w with
    | (Done a, w') => k a w'
    | (Panicked msg, w') => (Panicked msg, w')
    | (NoFuel, w') => (NoFuel, w')
    end.

Definition panic {A : Type} (msg : string) : M A := fun w => (Panicked msg, w).

Notation "x <- c ;; k" := (bind c (fun x => k))
  (at level 20, c at level 99, k at level 200, only parsing).
Notation "' pat <- c ;; k" := (bind c (fun x => let 'pat := x in k))
  (at level 20, pat pattern, c at level 99, k at level 200, only parsing).
Notation "c ;;; k" := (bind c (fun _ => k))
  (at level 100, k at level 200, right associativity, only parsing).

(** [defer d] around [body]: [d] runs when [body] returns and also when it
    panics; a panic of [body] goes on after [d]. *)
Definition deferred {A : Type} (d : M unit) (body : M A) : M A :=
  fun w =>
    match body w with
    | (Done a, w') =>
        match d w' with
        | (Done _, w'') => (Done a, w'')
        | (Panicked msg, w'') => (Panicked msg, w'')
        | (NoFuel, w'') => (NoFuel, w'')
        end
    | (Panicked msg, w') =>
        match d w' with
        | (NoFuel, w'') => (NoFuel, w'')
        | (_, w'') => (Panicked msg, w'')
        end
    | (NoFuel, w') => (NoFuel, w')
    end.

(** How one turn of a [for] body ends. *)
Inductive ctl (S R : Type) : Type :=
| Continue (s : S)
| Break (s : S)
| Return (r : R).
Arguments Continue {S R} s.
Arguments Break {S R} s.
Arguments Return {S R} r.

(** [for { body }] over the variables [s] the body assigns: [inl s] when the
    loop is left by [break], [inr r] when the body returns [r]. *)
Fixpoint for_loop {S R : Type} (fuel : nat) (body : S -> M (ctl S R)) (s : S)
  : M (S + R) :=
  match fuel with
  | O => fun w => (NoFuel, w)
  | Datatypes.S fuel' =>
      c <- body s ;;
      match c with
      | Continue s' => for_loop fuel' body s'
      | Break s' => ret (inl s')
      | Return r => ret (inr r)
      end
  end.

(** Make a call: the environment answers and the call is logged. *)
Definition call (c : ExtCall) : M Reply :=
  fun w =>
    (Done (kernel w (trace w) c),
     {| kernel := kernel w; trace := c :: trace w; open_fds := open_fds w;
        chans := chans w; numNRPorts := numNRPorts w |}).

Definition set_open (f : gset Z -> gset Z) : M unit :=
  fun w =>
    (Done tt,
     {| kernel := kernel w; trace := trace w; open_fds := f (open_fds w);
        chans := chans w; numNRPorts := numNRPorts w |}).

Definition get_numNRPorts : M Z := fun w => (Done (numNRPorts w), w).

Definition set_numNRPorts (n : Z) : M unit :=
  fun w =>
    (Done tt,
     {| kernel := kernel w; trace := trace w; open_fds := open_fds w;
        chans := chans w; numNRPorts := n |}).

(** [make(chan struct{})]. *)
Definition make_chan : M chan :=
  fun w =>
    (Done (Some (length (chans w))),
     {| kernel := kernel w; trace := trace w; open_fds := open_fds w;
        chans := (chans w ++ [false])%list; numNRPorts := numNRPorts w |}).

(** [close(ch)]. *)
Definition close_chan (ch : chan) : M unit :=
  fun w =>
    match ch with
    | None => (Panicked "close of nil channel", w)
    | Some i =>
        match chans w !! i with
        | Some false =>
            (Done tt,
             {| kernel := kernel w; trace := trace w; open_fds := open_fds w;
                chans := <[i := true]> (chans w);
                numNRPorts := numNRPorts w |})
        | Some true => (Panicked "close of closed channel", w)
        | None => (Panicked "close of nil channel", w)
        end
    end.

Definition lift {A : Type} (o : outcome A) : M A :=
  fun w =>
    match o with
    | Ret a => (Done a, w)
    | Panic msg => (Panicked msg, w)
    end.

(** ** Package syscall and package os *)

Definition syscall_Socket (domain typ proto : Z) : M (Z * option error) :=
  r <- call (SysSocket domain typ proto) ;;
  match r_err r with
  | None => set_open (fun o => {[ r_n r ]} ∪ o) ;;; ret (r_n r, None)
  | Some e => ret (r_n r, Some e)
  end.

Definition syscall_Close (fd : Z) : M (option error) :=
  r <- call (SysClose fd) ;;
  set_open (fun o => o ∖ {[ fd ]}) ;;;
  ret (r_err r).

Definition syscall_Listen (fd backlog : Z) : M (option error) :=
  r <- call (SysListen fd backlog) ;;
  ret (r_err r).

Definition syscall_SetNonblock (fd : Z) (nonblocking : bool) : M (option error) :=
  r <- call (SysSetNonblock fd nonblocking) ;;
  ret (r_err r).

Definition syscall_GetsockoptInt (fd level opt : Z) : M (Z * option error) :=
  r <- call (SysGetsockoptInt fd level opt) ;;
  ret (r_n r, r_err r).

(** [syscall.NsecToTimeval]: (Sec, Usec). *)
Definition NsecToTimeval (nsec : Z) : Z * Z :=
  let nsec := int64 (nsec + 999) in
  (Z.quot nsec 1000000000, Z.quot (Z.rem nsec 1000000000) 1000).

(** [syscall.Select]: the kernel rewrites in place the sets it is given. *)
Definition syscall_Select (nfd : Z) (r w e : option FdSet)
    (timeout : option (Z * Z))
  : M (Z * option error * option FdSet * option FdSet) :=
  rep <- call (SysSelect nfd r w e timeout) ;;
  ret (r_n rep, r_err rep,
       match r with Some _ => Some (r_rfds rep) | None => None end,
       match w with Some _ => Some (r_wfds rep) | None => None end).

(** An os.File. *)
Record File : Type := mkFile {
  file_fd : Z;
  file_name : string
}.

Definition os_NewFile (fd : Z) (name : string) : File :=
  {| file_fd := fd; file_name := name |}.

Definition File_Fd (f : File) : Z := file_fd f.

(** [os.Pipe]: the read end, the write end, the error. *)
Definition os_Pipe : M (option File * option File * option error) :=
  r <- call SysPipe ;;
  match r_err r with
  | Some e => ret (None, None, Some (SyscallError "pipe" e))
  | None =>
      set_open (fun o => {[ r_n r ]} ∪ ({[ r_n2 r ]} ∪ o)) ;;;
      ret (Some (os_NewFile (r_n r) "|0"), Some (os_NewFile (r_n2 r) "|1"),
           None)
  end.

Definition File_Close (f : File) : M (option error) :=
  err <- syscall_Close (file_fd f) ;;
  match err with
  | Some e => ret (Some (PathError "close" (file_name f) e))
  | None => ret None
  end.

(** [Read] of an os.File: the buffer as it is left, the count, the error. *)
Definition File_Read (f : File) (p : list Z)
  : M (list Z * Z * option error) :=
  r <- call (SysRead (file_fd f) (length p)) ;;
  let n := if r_n r <? 0 then 0 else r_n r in
  let p' := (take (Z.to_nat n) (r_data r) ++ drop (Z.to_nat n) p)%list in
  if (n =? 0) && (0 <? Z.of_nat (length p)) && is_nil (r_err r)
  then ret (p', 0, Some io_EOF)
  else
    match r_err r with
    | Some e => ret (p', n, Some (PathError "read" (file_name f) e))
    | None => ret (p', n, None)
    end.

(** [Write] of an os.File. *)
Definition File_Write (f : File) (p : list Z) : M (Z * option error) :=
  r <- call (SysWrite (file_fd f) p) ;;
  let n := if r_n r <? 0 then 0 else r_n r in
  let err := if n =? Z.of_nat (length p) then None
             else Some io_ErrShortWrite in
  match r_err r with
  | Some e => ret (n, Some (PathError "write" (file_name f) e))
  | None => ret (n, err)
  end.

(** [io.ReadWriteCloser]: an interface value, as its methods. *)
Record ReadWriteCloser : Type := mkRWC {
  rwc_Read : list Z -> M (list Z * Z * option error);
  rwc_Write : list Z -> M (Z * option error);
  rwc_Close : M (option error)
}.

(** An os.File held in an [io.ReadWriteCloser]. *)
Definition File_rwc (f : File) : ReadWriteCloser :=
  {| rwc_Read := File_Read f; rwc_Write := File_Write f;
     rwc_Close := File_Close f |}.

(** ** Socket handle, listener and connection (netrom_linux.go) *)

Record NetROMAddr : Type := mkNetROMAddr { addr : ax25Addr }.

Record Conn : Type := mkConn {
  conn_rwc : ReadWriteCloser;
  localAddr : NetROMAddr;
  remoteAddr : NetROMAddr
}.

Record netromListener : Type := mkListener {
  ln_sock : Z;
  ln_localAddr : NetROMAddr;
  ln_close : chan
}.

Definition portExists (port : string) : M bool :=
  r <- call (LibGetDev port) ;;
  ret (negb (r_n r =? 0)).

Definition loadPorts : M (Z * option error) :=
  cached <- get_numNRPorts ;;
  if cached >? 0 then ret (cached, None)
  else
    r <- call LibLoadPorts ;;
    match r_err r with
    | Some e => ret (r_n r, Some e)
    | None =>
        if r_n r =? 0
        then ret (0, Some (errorString "No NetROM ports configured"))
        else
          set_numNRPorts (r_n r) ;;;
          ret (r_n r, None)
    end.

Definition checkPort (nrPort : string) : M (option error) :=
  if (nrPort =? "")%string
  then ret (Some (errorString "Invalid empty nrPort"))
  else
    '(_, err) <- loadPorts ;;
    match err with
    | Some e => ret (Some e)
    | None =>
        ex <- portExists nrPort ;;
        if negb ex then ret (Some ErrPortNotExist) else ret None
    end.

Definition fd_close (sock : Z) : M (option error) := syscall_Close sock.

Definition fd_connect (sock : Z) (a : ax25Addr) : M (option error) :=
  r <- call (SysConnect sock a) ;;
  ret (r_err r).

Definition fd_bind (sock : Z) (a : ax25Addr) : M (option error) :=
  r <- call (SysBind sock a) ;;
  ret (r_err r).

Definition fd_accept (sock : Z) : M (Z * ax25Addr * option error) :=
  r <- call (SysAccept sock) ;;
  (if (0 <=? r_n r) && is_nil (r_err r)
   then set_open (fun o => {[ r_n r ]} ∪ o)
   else ret tt) ;;;
  if negb (r_n2 r =? sizeof_ax25Addr)
  then panic "unexpected socklet_t"
  else ret (r_n r, r_addr r, r_err r).

(** [setPort]: the C function is handed the address of the receiver
    variable, not the receiver; what the address holds afterwards is the
    environment's answer.  The error result is never assigned. *)
Definition setPort (a : ax25Addr) (port : string)
  : M (ax25Addr * option error) :=
  r1 <- call (LibGetAddr port) ;;
  r2 <- call (LibAton (r_str r1)) ;;
  ret (r_addr r2, None).

Definition newNetROMAddr (address : string) : M ax25Addr :=
  r <- call (LibAton address) ;;
  if r_n r <? 0 then panic "ax25_aton"
  else
    let a := r_addr r in
    ret {| sax25_family := AF_NETROM; sax25_call := sax25_call a;
           sax25_ndigis := sax25_ndigis a;
           fsa_digipeater := fsa_digipeater a |}.

(** [1 << uint(i % fElemSize)] at the element type int64. *)
Definition fd_mask (i fElemSize : Z) : Z :=
  let sh := uint64 (Z.rem i fElemSize) in
  if sh >=? 64 then 0 else int64 (Z.shiftl 1 sh).

Fixpoint fdSet_loop (fElemSize : Z) (p : FdSet) (fds : list Z) (max : Z)
  : outcome (FdSet * Z) :=
  match fds with
  | [] => Ret (p, max)
  | i :: fds' =>
      if i >? 1024 then Panic "fdSet: File Descriptor >= 1024"
      else
        let max := if i >? max then i else max in
        let idx := Z.quot i fElemSize in
        if idx <? 0 then Panic "index out of range"
        else
          match p !! Z.to_nat idx with
          | None => Panic "index out of range"
          | Some b =>
              fdSet_loop fElemSize
                (<[Z.to_nat idx := Z.lor b (fd_mask i fElemSize)]> p)
                fds' max
          end
  end.

(** [fdSet(p, fd...)]: the set as it is left, and [max]. *)
Definition fdSet (p : FdSet) (fds : list Z) : outcome (FdSet * Z) :=
  match Z.of_nat (length p) with
  | 0 => Panic "integer divide by zero"
  | len => fdSet_loop (Z.quot (32 * 32) len) p fds 0
  end.

Definition fdIsSet (p : FdSet) (i : Z) : outcome bool :=
  match Z.of_nat (length p) with
  | 0 => Panic "integer divide by zero"
  | len =>
      let fElemSize := Z.quot (32 * 32) len in
      let idx := Z.quot i fElemSize in
      if idx <? 0 then Panic "index out of range"
      else
        match p !! Z.to_nat idx with
        | None => Panic "index out of range"
        | Some b => Ret (negb (Z.land b (fd_mask i fElemSize) =? 0))
        end
  end.

(** One turn of the wait loop of [connectTimeout]; the loop variables are
    the descriptor set and the named result [err]. *)
Definition connectTimeout_body (sock : Z) (timeout : Z) (maxFd : Z)
    (st : FdSet * option error)
  : M (ctl (FdSet * option error) (option error)) :=
  let '(fdset, _) := st in
  let tv := NsecToTimeval (int64 timeout) in
  '(n, err, _, wset) <- syscall_Select (maxFd + 1) None (Some fdset) None (Some tv) ;;
  let fdset := match wset with Some s => s | None => fdset end in
  if (n <? 0) && negb (is_errno err EINTR) then
    fd_close sock ;;;
    ret (Return err)
  else if n >? 0 then
    '(nerr, err') <- syscall_GetsockoptInt sock SOL_SOCKET SO_ERROR ;;
    if negb (is_nil err') then
      fd_close sock ;;;
      ret (Return err')
    else
      let err' := Some (Errno (uint64 nerr)) in
      if negb (nerr =? 0) && negb (is_errno err' EINPROGRESS)
         && negb (is_errno err' EALREADY) && negb (is_errno err' EINTR)
      then
        fd_close sock ;;;
        ret (Return err')
      else ret (Break (fdset, err))
  else
    fd_close sock ;;;
    ret (Return (Some (errorString "Dial timeout"))).

Definition connectTimeout (fuel : nat) (sock : Z) (a : ax25Addr) (timeout : Z)
  : M (option error) :=
  if timeout =? 0 then fd_connect sock a
  else
    err <- syscall_SetNonblock sock true ;;
    if negb (is_nil err) then ret err
    else
      err <- fd_connect sock a ;;
      if is_nil err then ret None
      else if negb (is_errno err EINPROGRESS) then ret err
      else
        '(fdset, maxFd) <- lift (fdSet new_FdSet [sock]) ;;
        out <- for_loop fuel (connectTimeout_body sock timeout maxFd) (fdset, err) ;;
        match out with
        | inr e => ret e
        | inl (_, err) =>
            syscall_SetNonblock sock false ;;;
            ret err
        end.

(** One turn of the wait loop of [waitRead]. *)
Definition waitRead_body (sock : Z) (maxFd : Z) (fdset : FdSet)
  : M (ctl FdSet (option error)) :=
  '(n, err, rset, _) <- syscall_Select (maxFd + 1) (Some fdset) None None None ;;
  let fdset := match rset with Some s => s | None => fdset end in
  if (n <? 0) || negb (is_nil err) then ret (Return err)
  else
    ready <- lift (fdIsSet fdset sock) ;;
    if ready then ret (Break fdset)
    else ret (Return (Some (Errno EINVAL))).

(** [waitRead].  The goroutine it starts waits for [cancel] or [done] and, on
    [cancel], writes one byte to the pipe: it runs beside this function and
    is part of the environment, where its write shows as the pipe's read end
    being ready in the answer to select. *)
Definition waitRead (fuel : nat) (sock : Z) (cancel : chan)
  : M (option error) :=
  '(pr, pw, err) <- os_Pipe ;;
  match pr, pw, err with
  | Some pr, Some pw, None =>
      done <- make_chan ;;
      deferred (close_chan done ;;; File_Close pw ;;; ret tt)
        ('(fdset, maxFd) <- lift (fdSet new_FdSet [sock; File_Fd pr]) ;;
         syscall_SetNonblock sock true ;;;
         deferred (syscall_SetNonblock sock false ;;; ret tt)
           (out <- for_loop fuel (waitRead_body sock maxFd) fdset ;;
            match out with
            | inr e => ret e
            | inl _ => ret None
            end))
  | _, _, _ => ret err
  end.

Definition netromListener_Addr (ln : netromListener) : NetROMAddr :=
  ln_localAddr ln.

Definition netromListener_Close (ln : netromListener) : M (option error) :=
  close_chan (ln_close ln) ;;;
  fd_close (ln_sock ln).

Definition netromListener_Accept (fuel : nat) (ln : netromListener)
  : M (option Conn * option error) :=
  err <- waitRead fuel (ln_sock ln) (ln_close ln) ;;
  if negb (is_nil err) then ret (None, err)
  else
    '(nfd, a, err) <- fd_accept (ln_sock ln) ;;
    if negb (is_nil err) then ret (None, err)
    else
      ret (Some {| localAddr := ln_localAddr ln;
                   remoteAddr := {| addr := a |};
                   conn_rwc := File_rwc (os_NewFile nfd "") |},
           None).

Definition ListenNetROM (nrPort mycall : string)
  : M (option netromListener * option error) :=
  err <- checkPort nrPort ;;
  if negb (is_nil err) then ret (None, err)
  else
    localAddr <- newNetROMAddr mycall ;;
    '(localAddr, err) <- setPort localAddr nrPort ;;
    if negb (is_nil err) then ret (None, err)
    else
      '(f, err) <- syscall_Socket AF_NETROM SOCK_SEQPACKET 0 ;;
      if negb (is_nil err) then ret (None, err)
      else
        let socket := f in
        err <- fd_bind socket localAddr ;;
        if negb (is_nil err) then ret (None, err)
        else
          err <- syscall_Listen socket SOMAXCONN ;;
          if negb (is_nil err) then ret (None, err)
          else
            ch <- make_chan ;;
            ret (Some {| ln_sock := socket;
                         ln_localAddr := {| addr := localAddr |};
                         ln_close := ch |},
                 None).

Definition DialNetROMTimeout (fuel : nat) (nrPort mycall targetcall : string)
    (timeout : Z)
  : M (option Conn * option error) :=
  err <- checkPort nrPort ;;
  if negb (is_nil err) then ret (None, err)
  else
    localAddr <- newNetROMAddr mycall ;;
    '(localAddr, err) <- setPort localAddr nrPort ;;
    if negb (is_nil err) then ret (None, err)
    else
      remoteAddr <- newNetROMAddr targetcall ;;
      '(f, err) <- syscall_Socket AF_NETROM SOCK_SEQPACKET 0 ;;
      if negb (is_nil err) then ret (None, err)
      else
        let socket := f in
        err <- fd_bind socket localAddr ;;
        if negb (is_nil err) then ret (None, err)
        else
          err <- connectTimeout fuel socket remoteAddr timeout ;;
          if negb (is_nil err) then
            fd_close socket ;;;
            ret (None, err)
          else
            ret (Some {| conn_rwc := File_rwc (os_NewFile socket nrPort);
                         localAddr := {| addr := localAddr |};
                         remoteAddr := {| addr := remoteAddr |} |},
                 None).

Definition DialNetROM (fuel : nat) (nrPort mycall targetcall : string)
  : M (option Conn * option error) :=
  DialNetROMTimeout fuel nrPort mycall targetcall 0.

(** The methods of [*Conn]; [None] is the nil receiver. *)
Definition Conn_ok (c : option Conn) : bool := negb (is_nil c).

Definition Conn_Close (c : option Conn) : M (option error) :=
  match c with
  | None => ret (Some (Errno EINVAL))
  | Some c => rwc_Close (conn_rwc c)
  end.

Definition Conn_Write (c : option Conn) (p : list Z) : M (Z * option error) :=
  match c with
  | None => ret (0, Some (Errno EINVAL))
  | Some c =>
      '(n, err) <- rwc_Write (conn_rwc c) p ;;
      match err with
      | Some (PathError _ _ perr_Err) =>
          if (Error perr_Err =? "message too long")%string
          then ret (n, Some ErrMessageTooLong)
          else ret (n, err)
      | _ => ret (n, err)
      end
  end.

Definition Conn_Read (c : option Conn) (p : list Z)
  : M (list Z * Z * option error) :=
  match c with
  | None => ret (p, 0, Some (Errno EINVAL))
  | Some c =>
      '(p', n, err) <- rwc_Read (conn_rwc c) p ;;
      match err with
      | Some (PathError _ _ perr_Err) =>
          if (Error perr_Err =? "transport endpoint is not connected")%string
          then ret (p', n, Some io_EOF)
          else ret (p', n, err)
      | _ => ret (p', n, err)
      end
  end.

(** ** Words of the address format *)

(** The text before the first dash (all of it when there is none). *)
Fixpoint before_dash (s : string) : string :=
  match s with
  | EmptyString => EmptyString
  | String c s' => if Ascii.eqb c dash then EmptyString
                   else String c (before_dash s')
  end.

(** The text after the first dash, when there is one. *)
Fixpoint after_dash (s : string) : option string :=
  match s with
  | EmptyString => None
  | String c s' => if Ascii.eqb c dash then Some s' else after_dash s'
  end.

Fixpoint has_dash (s : string) : bool :=
  match s with
  | EmptyString => false
  | String c s' => Ascii.eqb c dash || has_dash s'
  end.

Definition is_digit (c : ascii) : bool :=
  (48 <=? byte_of c) && (byte_of c <=? 57).

Fixpoint all_digits (s : string) : bool :=
  match s with
  | EmptyString => true
  | String c s' => is_digit c && all_digits s'
  end.

(** A decimal numeral: one digit at least, digits only. *)
Definition is_decimal (s : string) : bool :=
  match s with
  | EmptyString => false
  | _ => all_digits s
  end.

(** The number a string of digits writes, read after the digits [n]. *)
Fixpoint decimal_from (n : Z) (s : string) : Z :=
  match s with
  | EmptyString => n
  | String c s' => decimal_from (10 * n + (byte_of c - 48)) s'
  end.

Definition decimal_value (s : string) : Z := decimal_from 0 s.

(** A text that is not the decimal writing of an integer in [0,255]:
    not a number, negative, or too large. *)
Definition malformed_SSID (t : string) : bool :=
  match ParseInt t 10 32 with
  | (v, None) => (v <? 0) || (v >? 255)
  | (_, Some _) => true
  end.

(** The SSID field the parser looks at: the text after the first dash up to
    the next dash. *)
Definition SSID_field (s : string) : option string :=
  match after_dash s with
  | Some t => Some (before_dash t)
  | None => None
  end.

(** ** Environments used in the examples *)

Definition fds_of (fds : list Z) : FdSet :=
  match fdSet new_FdSet fds with
  | Ret (p, _) => p
  | Panic _ => new_FdSet
  end.

Definition with_sets (r : Reply) (rfds wfds : FdSet) : Reply :=
  {| r_n := r_n r; r_err := r_err r; r_n2 := r_n2 r; r_rfds := rfds;
     r_wfds := wfds; r_addr := r_addr r; r_data := r_data r;
     r_str := r_str r |}.

Definition with_n2 (r : Reply) (n2 : Z) : Reply :=
  {| r_n := r_n r; r_err := r_err r; r_n2 := n2; r_rfds := r_rfds r;
     r_wfds := r_wfds r; r_addr := r_addr r; r_data := r_data r;
     r_str := r_str r |}.

Definition with_addr (r : Reply) (a : ax25Addr) : Reply :=
  {| r_n := r_n r; r_err := r_err r; r_n2 := r_n2 r; r_rfds := r_rfds r;
     r_wfds := r_wfds r; r_addr := a; r_data := r_data r;
     r_str := r_str r |}.

Definition peer_addr : ax25Addr :=
  {| sax25_family := AF_NETROM; sax25_call := [156; 96; 134; 130; 152; 152; 4];
     sax25_ndigis := 0; fsa_digipeater := [] |}.

(** A well-behaved system: one port is configured, descriptors 3 (socket),
    4 and 5 (pipe) and 6 (accepted) are handed out, every call succeeds. *)
Definition good_kernel (hist : list ExtCall) (c : ExtCall) : Reply :=
  match c with
  | SysSocket _ _ _ => ok_reply 3
  | SysPipe => with_n2 (ok_reply 4) 5
  | SysAccept _ => with_addr (with_n2 (ok_reply 6) sizeof_ax25Addr) peer_addr
  | SysSelect _ _ _ _ _ => with_sets (ok_reply 1) (fds_of [3]) (fds_of [3])
  | LibLoadPorts => ok_reply 1
  | LibGetDev _ => ok_reply 1
  | _ => ok_reply 0
  end.

(** As [good_kernel], but bind fails. *)
Definition bind_fails_kernel (hist : list ExtCall) (c : ExtCall) : Reply :=
  match c with
  | SysBind _ _ => err_reply (-1) EADDRINUSE
  | _ => good_kernel hist c
  end.

(** As [good_kernel], but connect is left in progress and the socket's
    pending error, read after the wait, is [e]. *)
Definition pending_kernel (e : Z) (hist : list ExtCall) (c : ExtCall) : Reply :=
  match c with
  | SysConnect _ _ => err_reply (-1) EINPROGRESS
  | SysGetsockoptInt _ _ _ => ok_reply e
  | _ => good_kernel hist c
  end.

(** As [good_kernel], but select wakes with only the pipe's read end ready. *)
Definition cancel_kernel (hist : list ExtCall) (c : ExtCall) : Reply :=
  match c with
  | SysSelect _ _ _ _ _ => with_sets (ok_reply 1) (fds_of [4]) new_FdSet
  | _ => good_kernel hist c
  end.

(** As [good_kernel], but select wakes with both the socket and the pipe's
    read end ready. *)
Definition tie_kernel (hist : list ExtCall) (c : ExtCall) : Reply :=
  match c with
  | SysSelect _ _ _ _ _ => with_sets (ok_reply 2) (fds_of [3; 4]) new_FdSet
  | _ => good_kernel hist c
  end.

(** As [good_kernel], but select itself fails with EINVAL. *)
Definition select_einval_kernel (hist : list ExtCall) (c : ExtCall) : Reply :=
  match c with
  | SysSelect _ _ _ _ _ => err_reply (-1) EINVAL
  | _ => good_kernel hist c
  end.

(** As [good_kernel], but the peer has hung up and writes are too long. *)
Definition hangup_kernel (hist : list ExtCall) (c : ExtCall) : Reply :=
  match c with
  | SysRead _ _ => err_reply (-1) ENOTCONN
  | SysWrite _ _ => err_reply (-1) EMSGSIZE
  | _ => good_kernel hist c
  end.

Definition world_of (k : list ExtCall -> ExtCall -> Reply) : World :=
  {| kernel := k; trace := []; open_fds := ∅; chans := []; numNRPorts := 0 |}.

Definition a_conn : Conn :=
  {| conn_rwc := File_rwc (os_NewFile 3 "radio0");
     localAddr := {| addr := zero_ax25Addr |};
     remoteAddr := {| addr := peer_addr |} |}.

Definition a_listener : netromListener :=
  {| ln_sock := 3; ln_localAddr := {| addr := zero_ax25Addr |};
     ln_close := Some 0%nat |}.

(** A world in which [a_listener] is listening: descriptor 3 open, its
    channel made and not closed. *)
Definition listening_world (k : list ExtCall -> ExtCall -> Reply) : World :=
  {| kernel := k; trace := []; open_fds := {[ 3 ]}; chans := [false];
     numNRPorts := 1 |}.

Definition is_select (c : ExtCall) : bool :=
  match c with
  | SysSelect _ _ _ _ _ => true
  | _ => false
  end.

(** How many times select was called in a trace. *)
Definition count_selects (t : list ExtCall) : nat :=
  length (List.filter is_select t).

Definition second : Z := 1000000000.

(** ** Words of the claims *)

(** The SSID [AddressFromString] stores for the field it parses. *)
Definition parsed_SSID (fld : string) : Z :=
  match ParseInt fld 10 32 with
  | (ssid, None) => if (ssid >=? 0) && (ssid <=? 255) then uint8 ssid else 0
  | (_, Some _) => 0
  end.

Definition FormatUint_ok (n : Z) : bool :=
  is_decimal (FormatUint n) && (decimal_value (FormatUint n) =? n).

(** The handle reports a peer hang-up: a path error whose cause reads
    "transport endpoint is not connected". *)
Definition hangs_up (err : option error) : Prop :=
  exists op path e,
    err = Some (PathError op path e) /\
    Error e = "transport endpoint is not connected".

(** The handle reports a too long message: a path error whose cause reads
    "message too long". *)
Definition too_long (err : option error) : Prop :=
  exists op path e,
    err = Some (PathError op path e) /\ Error e = "message too long".

(** The calls of [connectTimeout] on its way through the wait, and the
    traces they are made at. *)
Definition ct_nonblock (sock : Z) : ExtCall := SysSetNonblock sock true.

Definition ct_connect (sock : Z) (a : ax25Addr) : ExtCall := SysConnect sock a.

Definition ct_select (maxFd : Z) (fdset : FdSet) (timeout : Z) : ExtCall :=
  SysSelect (maxFd + 1) None (Some fdset) None
    (Some (NsecToTimeval (int64 timeout))).

Definition ct_getsockopt (sock : Z) : ExtCall :=
  SysGetsockoptInt sock SOL_SOCKET SO_ERROR.

Definition ct_trace_connect (w : World) (sock : Z) : list ExtCall :=
  ct_nonblock sock :: trace w.

Definition ct_trace_select (w : World) (sock : Z) (a : ax25Addr)
  : list ExtCall :=
  ct_connect sock a :: ct_trace_connect w sock.

Definition ct_trace_getsockopt (w : World) (sock : Z) (a : ax25Addr)
    (maxFd : Z) (fdset : FdSet) (timeout : Z) : list ExtCall :=
  ct_select maxFd fdset timeout :: ct_trace_select w sock a.

(** The answer to the wait, and the answer to reading the pending error. *)
Definition ct_woken (w : World) (sock : Z) (a : ax25Addr)
    (maxFd : Z) (fdset : FdSet) (timeout : Z) : Reply :=
  kernel w (ct_trace_select w sock a) (ct_select maxFd fdset timeout).

Definition ct_pending (w : World) (sock : Z) (a : ax25Addr)
    (maxFd : Z) (fdset : FdSet) (timeout : Z) : Reply :=
  kernel w (ct_trace_getsockopt w sock a maxFd fdset timeout)
    (ct_getsockopt sock).

(** The calls of [waitRead], and the traces they are made at. *)
Definition wr_pipe (w : World) : Reply := kernel w (trace w) SysPipe.

Definition wr_select_call (maxFd : Z) (fdset : FdSet) : ExtCall :=
  SysSelect (maxFd + 1) (Some fdset) None None None.

Definition wr_trace_select (w : World) (sock : Z) : list ExtCall :=
  SysSetNonblock sock true :: SysPipe :: trace w.

(** The answer to the select of [waitRead]. *)
Definition wr_select (w : World) (sock : Z) (maxFd : Z) (fdset : FdSet)
  : Reply :=
  kernel w (wr_trace_select w sock) (wr_select_call maxFd fdset).

(** The trace when [waitRead] is back. *)
Definition wr_trace_end (w : World) (sock : Z) (maxFd : Z) (fdset : FdSet)
  : list ExtCall :=
  SysClose (r_n2 (wr_pipe w)) :: SysSetNonblock sock false ::
  wr_select_call maxFd fdset :: wr_trace_select w sock.

(** The world when [waitRead] is back. *)
Definition wr_world_end (w : World) (sock : Z) (maxFd : Z) (fdset : FdSet)
  : World :=
  {| kernel := kernel w;
     trace := wr_trace_end w sock maxFd fdset;
     open_fds :=
       ({[ r_n (wr_pipe w) ]} ∪ ({[ r_n2 (wr_pipe w) ]} ∪ open_fds w))
       ∖ {[ r_n2 (wr_pipe w) ]};
     chans := <[length (chans w) := true]> (chans w ++ [false])%list;
     numNRPorts := numNRPorts w |}.

(** The answer to the accept that follows [waitRead] in [Accept]. *)
Definition wr_accept (w : World) (sock : Z) (maxFd : Z) (fdset : FdSet)
  : Reply :=
  kernel w (wr_trace_end w sock maxFd fdset) (SysAccept sock).

(** The dial whose bind fails. *)
Definition failed_bind_dial
  : result (option Conn * option error) * World :=
  DialNetROMTimeout 1 "radio0" "N0CALL-1" "N0CALL-2" (5 * second)
    (world_of bind_fails_kernel).

(** The dial whose connect is refused after the wait. *)
Definition refused_dial
  : result (option Conn * option error) * World :=
  DialNetROMTimeout 1 "radio0" "N0CALL-1" "N0CALL-2" (5 * second)
    (world_of (pending_kernel ECONNREFUSED)).

(** A wait in which the pending error read after the wake-up is [e]. *)
Definition pending_connect (e : Z) : result (option error) * World :=
  connectTimeout 5 3 peer_addr (5 * second) (world_of (pending_kernel e)).

(** The accept woken by cancellation, and the accept whose select fails. *)
Definition cancelled_accept : result (option Conn * option error) * World :=
  netromListener_Accept 1 a_listener (listening_world cancel_kernel).

Definition failed_select_accept
  : result (option Conn * option error) * World :=
  netromListener_Accept 1 a_listener (listening_world select_einval_kernel).

(** The world a read (a write) of [a_conn] on a hung-up line ends in. *)
Definition hangup_read_world : World :=
  snd (File_Read (os_NewFile 3 "radio0") [0; 0; 0] (world_of hangup_kernel)).

Definition hangup_write_world : World :=
  snd (File_Write (os_NewFile 3 "radio0") [1; 2; 3] (world_of hangup_kernel)).

(** Unfolding the runs of the monad. *)
Ltac run_unfold :=
  unfold os_Pipe, deferred, waitRead_body, connectTimeout_body, fd_connect,
    fd_close, fd_accept, fd_bind, File_Close, syscall_Select,
    syscall_GetsockoptInt, syscall_SetNonblock, syscall_Close, make_chan,
    close_chan, set_open, lift, panic, bind, call, ret.

Ltac run_world :=
  cbn [for_loop chans trace kernel open_fds numNRPorts is_nil negb andb orb].

(** ** Words of further properties *)

(** A 64-bit element as the kernel and Go hold it: the bits from 63 up all
    equal the sign bit. *)
Definition int64_bits (b : Z) : Prop :=
  forall j, 63 <= j -> Z.testbit b j = Z.testbit b 63.

(** The descriptors a set can hold. *)
Definition fd_in_set_range (i : Z) : Prop := 0 <= i < 1024.

(** The descriptors [fdSet] takes without panic. *)
Definition fd_accepted (i : Z) : Prop := -64 < i < 1024.

(** Bit [j mod 64] of element [j / 64]. *)
Definition fd_bit (p : FdSet) (j : Z) : bool :=
  match p !! Z.to_nat (j / 64) with
  | Some b => Z.testbit b (j mod 64)
  | None => false
  end.

(** ** Addresses and beacons (netrom.go, netrom_linux.go, beacon_linux.go) *)

Definition _NETWORK : string := "NetROM".

Definition NetROMAddr_Network (a : NetROMAddr) : string := _NETWORK.

(** [ax25Addr.Address]: the text libax25 gives for the call sign, parsed. *)
Definition ax25Addr_Address (a : ax25Addr) : M Address :=
  r <- call (LibNtoa (sax25_call a)) ;;
  lift (AddressFromString (r_str r)).

(** [NetROMAddr.String]: [fmt.Fprint] of the [Address], which prints it
    through its [String] method. *)
Definition NetROMAddr_String (a : NetROMAddr) : M string :=
  ad <- ax25Addr_Address (addr a) ;;
  ret (Address_String ad).

Definition Conn_LocalAddr (c : option Conn) : option NetROMAddr :=
  match c with
  | None => None
  | Some c => Some (localAddr c)
  end.

Definition Conn_RemoteAddr (c : option Conn) : option NetROMAddr :=
  match c with
  | None => None
  | Some c => Some (remoteAddr c)
  end.

Record NetROMBeacon : Type := mkBeacon {
  beacon_localAddr : ax25Addr;
  beacon_remoteAddr : ax25Addr;
  beacon_message : string
}.

Definition NewNetROMBeacon (nrPort mycall dest message : string)
  : M (option NetROMBeacon * option error) :=
  err <- checkPort nrPort ;;
  if negb (is_nil err) then ret (None, err)
  else
    localAddr <- newNetROMAddr mycall ;;
    '(localAddr, err) <- setPort localAddr nrPort ;;
    if negb (is_nil err) then ret (None, err)
    else
      remoteAddr <- newNetROMAddr dest ;;
      ret (Some {| beacon_localAddr := localAddr;
                   beacon_remoteAddr := remoteAddr;
                   beacon_message := message |},
           None).




(** ** Further environments *)

(** [good_kernel] with the answers [f] gives put in front. *)
Definition kernel_with (f : ExtCall -> option Reply)
    (hist : list ExtCall) (c : ExtCall) : Reply :=
  match f c with
  | Some r => r
  | None => good_kernel hist c
  end.

(** Connect is left in progress and the wait gives [n] and [e]. *)
Definition waiting_kernel (n : Z) (e : option error) : list ExtCall -> ExtCall -> Reply :=
  kernel_with (fun c =>
    match c with
    | SysConnect _ _ => Some (err_reply (-1) EINPROGRESS)
    | SysSelect _ _ _ _ _ =>
        Some {| r_n := n; r_err := e; r_n2 := 0; r_rfds := new_FdSet;
                r_wfds := new_FdSet; r_addr := zero_ax25Addr; r_data := [];
                r_str := EmptyString |}
    | _ => None
    end).

(** Connect is left in progress, the wait wakes, and reading the pending
    error fails with [e]. *)
Definition getsockopt_fails_kernel (e : Z) : list ExtCall -> ExtCall -> Reply :=
  kernel_with (fun c =>
    match c with
    | SysConnect _ _ => Some (err_reply (-1) EINPROGRESS)
    | SysGetsockoptInt _ _ _ => Some (err_reply (-1) e)
    | _ => None
    end).

Definition nonblock_fails_kernel (e : Z) : list ExtCall -> ExtCall -> Reply :=
  kernel_with (fun c =>
    match c with
    | SysSetNonblock _ _ => Some (err_reply (-1) e)
    | _ => None
    end).

Definition connect_fails_kernel (e : Z) : list ExtCall -> ExtCall -> Reply :=
  kernel_with (fun c =>
    match c with
    | SysConnect _ _ => Some (err_reply (-1) e)
    | _ => None
    end).

Definition listen_fails_kernel (e : Z) : list ExtCall -> ExtCall -> Reply :=
  kernel_with (fun c =>
    match c with
    | SysListen _ _ => Some (err_reply (-1) e)
    | _ => None
    end).

Definition pipe_fails_kernel (e : Z) : list ExtCall -> ExtCall -> Reply :=
  kernel_with (fun c =>
    match c with
    | SysPipe => Some (err_reply (-1) e)
    | _ => None
    end).

Definition accept_fails_kernel (e : Z) : list ExtCall -> ExtCall -> Reply :=
  kernel_with (fun c =>
    match c with
    | SysAccept _ => Some (with_n2 (err_reply (-1) e) sizeof_ax25Addr)
    | _ => None
    end).

(** The kernel shortens the address it fills in on accept. *)
Definition accept_short_kernel : list ExtCall -> ExtCall -> Reply :=
  kernel_with (fun c =>
    match c with
    | SysAccept _ => Some (with_n2 (ok_reply 6) 16)
    | _ => None
    end).

(** No port is configured (no device is found). *)
Definition no_port_kernel (n : Z) (dev : Z) : list ExtCall -> ExtCall -> Reply :=
  kernel_with (fun c =>
    match c with
    | LibLoadPorts => Some (ok_reply n)
    | LibGetDev _ => Some (ok_reply dev)
    | _ => None
    end).

(** libax25 renders every call sign as [t]. *)
Definition ntoa_kernel (t : string) : list ExtCall -> ExtCall -> Reply :=
  kernel_with (fun c =>
    match c with
    | LibNtoa _ =>
        Some {| r_n := 0; r_err := None; r_n2 := 0; r_rfds := new_FdSet;
                r_wfds := new_FdSet; r_addr := zero_ax25Addr; r_data := [];
                r_str := t |}
    | _ => None
    end).

(** The world after a call answered by the world's kernel. *)
Definition after_call (w : World) (c : ExtCall) : World :=
  {| kernel := kernel w; trace := c :: trace w; open_fds := open_fds w;
     chans := chans w; numNRPorts := numNRPorts w |}.

(** The answer of the world's kernel to a call made now. *)
Definition answer (w : World) (c : ExtCall) : Reply :=
  kernel w (trace w) c.

(** The world with descriptor [fd] closed by a close call. *)
Definition after_close (w : World) (fd : Z) : World :=
  {| kernel := kernel w; trace := SysClose fd :: trace w;
     open_fds := open_fds w ∖ {[ fd ]};
     chans := chans w; numNRPorts := numNRPorts w |}.

(** The world with descriptor [fd] opened by the call [c]. *)
Definition after_open (w : World) (c : ExtCall) (fd : Z) : World :=
  {| kernel := kernel w; trace := c :: trace w;
     open_fds := {[ fd ]} ∪ open_fds w;
     chans := chans w; numNRPorts := numNRPorts w |}.

(** The address [newNetROMAddr] builds from what ax25_aton filled in. *)
Definition netrom_addr (a : ax25Addr) : ax25Addr :=
  {| sax25_family := AF_NETROM; sax25_call := sax25_call a;
     sax25_ndigis := sax25_ndigis a; fsa_digipeater := fsa_digipeater a |}.

(** The worlds a dial or a listen on "radio0" as "N0CALL-1" goes through
    under the kernel [k], up to the socket (descriptor 3). *)
Definition at_port (k : list ExtCall -> ExtCall -> Reply) : World :=
  snd (checkPort "radio0" (world_of k)).

Definition at_local (k : list ExtCall -> ExtCall -> Reply) : World :=
  snd (newNetROMAddr "N0CALL-1" (at_port k)).

Definition at_setport (k : list ExtCall -> ExtCall -> Reply) : World :=
  snd (setPort (netrom_addr zero_ax25Addr) "radio0" (at_local k)).

Definition at_remote (k : list ExtCall -> ExtCall -> Reply) : World :=
  snd (newNetROMAddr "N0CALL-2" (at_setport k)).

Definition the_socket : ExtCall := SysSocket AF_NETROM SOCK_SEQPACKET 0.

(** The descriptor the kernel [k] hands out for the socket, and the worlds
    after the socket call, after bind, and after the connect with a timeout
    of five seconds. *)
Definition socket_fd (k : list ExtCall -> ExtCall -> Reply) : Z :=
  r_n (answer (at_remote k) the_socket).

Definition at_socket (k : list ExtCall -> ExtCall -> Reply) : World :=
  after_open (at_remote k) the_socket (socket_fd k).

Definition at_bind (k : list ExtCall -> ExtCall -> Reply) : World :=
  snd (fd_bind (socket_fd k) zero_ax25Addr (at_socket k)).

Definition at_connect (k : list ExtCall -> ExtCall -> Reply) : World :=
  snd (connectTimeout 1 (socket_fd k) (netrom_addr zero_ax25Addr) (5 * second)
         (at_bind k)).

(** * Properties *)

(** ** The address codec *)

Example AddressFromString_with_SSID :
  AddressFromString "N0CALL-12" = Ret {| Call := "N0CALL"; SSID := 12 |}.
Proof. reflexivity. Qed.

Example AddressFromString_bare :
  AddressFromString "N0CALL" = Ret {| Call := "N0CALL"; SSID := 0 |}.
Proof. reflexivity. Qed.

Example AddressFromString_too_large :
  AddressFromString "N0CALL-256" = Ret {| Call := "N0CALL"; SSID := 0 |}.
Proof. reflexivity. Qed.

Example AddressFromString_minus :
  AddressFromString "N0CALL--5" = Ret {| Call := "N0CALL"; SSID := 0 |}.
Proof. reflexivity. Qed.

Example AddressFromString_plus :
  AddressFromString "N0CALL-+5" = Ret {| Call := "N0CALL"; SSID := 5 |}.
Proof. reflexivity. Qed.

Example Address_String_255 :
  Address_String {| Call := "N0CALL"; SSID := 255 |} = "N0CALL-255".
Proof. reflexivity. Qed.

Example Address_String_0 :
  Address_String {| Call := "N0CALL"; SSID := 0 |} = "N0CALL".
Proof. reflexivity. Qed.

Lemma strings_Split_dash (s : string) :
  strings_Split s dash =
  before_dash s ::
    match after_dash s with
    | Some t => strings_Split t dash
    | None => []
    end.
Proof.
  induction s as [|c s IH]; simpl; [reflexivity|].
  destruct (Ascii.eqb c dash); [reflexivity|].
  rewrite IH. reflexivity.
Qed.

Lemma before_dash_app (call rest : string) :
  has_dash call = false ->
  before_dash (call ++ String dash rest) = call.
Proof.
  induction call as [|c call IH]; simpl; intros H.
  - reflexivity.
  - apply orb_false_iff in H as [Hc Hd]. rewrite Hc, IH; auto.
Qed.

Lemma after_dash_app (call rest : string) :
  has_dash call = false ->
  after_dash (call ++ String dash rest) = Some rest.
Proof.
  induction call as [|c call IH]; simpl; intros H.
  - reflexivity.
  - apply orb_false_iff in H as [Hc Hd]. rewrite Hc, IH; auto.
Qed.

Lemma before_dash_no_dash (s : string) :
  has_dash s = false -> before_dash s = s.
Proof.
  induction s as [|c s IH]; simpl; intros H; [reflexivity|].
  apply orb_false_iff in H as [Hc Hd]. rewrite Hc, IH; auto.
Qed.

Lemma after_dash_no_dash (s : string) :
  has_dash s = false -> after_dash s = None.
Proof.
  induction s as [|c s IH]; simpl; intros H; [reflexivity|].
  apply orb_false_iff in H as [Hc Hd]. rewrite Hc, IH; auto.
Qed.

(** [AddressFromString] never panics: the call sign is the text before the
    first dash, the SSID comes from the field after it. *)
Lemma AddressFromString_eq (str : string) :
  AddressFromString str =
  Ret {| Call := before_dash str;
         SSID := match SSID_field str with
                 | Some fld => parsed_SSID fld
                 | None => 0
                 end |}.
Proof.
  unfold AddressFromString, SSID_field, parsed_SSID.
  rewrite strings_Split_dash.
  destruct (after_dash str) as [t|]; [|reflexivity].
  rewrite (strings_Split_dash t).
  match goal with |- context [1 <? ?n] => replace (1 <? n) with true end.
  2:{ symmetry. apply Z.ltb_lt. simpl length. lia. }
  destruct (ParseInt (before_dash t) 10 32) as [ssid [e|]]; [reflexivity|].
  simpl. destruct ((ssid >=? 0) && (ssid <=? 255)); reflexivity.
Qed.

Lemma is_digit_range (c : ascii) :
  is_digit c = true -> 0 <= byte_of c - 48 <= 9.
Proof.
  unfold is_digit. intros H. apply andb_true_iff in H as [H1 H2]. lia.
Qed.

Lemma digit_val_digit (c : ascii) :
  is_digit c = true -> digit_val (byte_of c) = Some (byte_of c - 48).
Proof. unfold is_digit, digit_val. intros ->. reflexivity. Qed.

Lemma decimal_from_ge (s : string) : forall n,
  all_digits s = true -> 0 <= n -> n <= decimal_from n s.
Proof.
  induction s as [|c s IH]; simpl; intros n H Hn; [lia|].
  apply andb_true_iff in H as [Hc Hs].
  pose proof (is_digit_range c Hc).
  specialize (IH (10 * n + (byte_of c - 48)) Hs). lia.
Qed.

Lemma all_digits_no_dash (s : string) :
  all_digits s = true -> has_dash s = false.
Proof.
  induction s as [|c s IH]; simpl; intros H; [reflexivity|].
  apply andb_true_iff in H as [Hc Hs]. rewrite (IH Hs), orb_false_r.
  destruct (Ascii.eqb_spec c dash) as [->|]; [discriminate Hc|reflexivity].
Qed.

(** On digits the loop of ParseUint computes the number written, as long as
    it fits 32 bits. *)
Lemma ParseUint_loop_digits (s : string) : forall n,
  all_digits s = true -> 0 <= n -> decimal_from n s <= 2 ^ 32 - 1 ->
  ParseUint_loop 10 (maxUint64 / 10 + 1) (2 ^ 32 - 1) n s =
  (decimal_from n s, None).
Proof.
  induction s as [|c s IH]; simpl; intros n H Hn Hv; [reflexivity|].
  apply andb_true_iff in H as [Hc Hs].
  pose proof (is_digit_range c Hc) as Hd.
  rewrite (digit_val_digit c Hc).
  pose proof (decimal_from_ge s (10 * n + (byte_of c - 48)) Hs ltac:(lia))
    as Hge.
  assert (Hcut : maxUint64 / 10 + 1 = 1844674407370955162) by reflexivity.
  rewrite Hcut.
  assert (H32 : 2 ^ 32 - 1 = 4294967295) by reflexivity.
  rewrite H32 in *.
  destruct (Z.geb_spec (byte_of c - 48) 10); [lia|].
  destruct (Z.geb_spec n 1844674407370955162); [lia|].
  unfold uint64.
  assert (H64 : 2 ^ 64 = 18446744073709551616) by reflexivity.
  rewrite H64.
  rewrite (Z.mod_small (n * 10)) by lia.
  rewrite (Z.mod_small (n * 10 + _)) by lia.
  destruct (Z.ltb_spec (n * 10 + (byte_of c - 48)) (n * 10)); [lia|].
  destruct (Z.gtb_spec (n * 10 + (byte_of c - 48)) 4294967295); [lia|].
  simpl orb. cbv iota.
  replace (n * 10 + (byte_of c - 48)) with (10 * n + (byte_of c - 48)) by lia.
  apply IH; auto; lia.
Qed.

Lemma ParseInt_decimal (s : string) :
  is_decimal s = true -> decimal_value s <= 255 ->
  ParseInt s 10 32 = (decimal_value s, None).
Proof.
  unfold is_decimal, decimal_value. destruct s as [|c s]; [discriminate|].
  intros Hd Hv.
  pose proof (ParseUint_loop_digits (String c s) 0 Hd ltac:(lia)) as HP.
  pose proof (decimal_from_ge (String c s) 0 Hd ltac:(lia)) as Hge.
  assert (H32 : 2 ^ 32 - 1 = 4294967295) by reflexivity.
  specialize (HP ltac:(lia)).
  simpl in Hd. apply andb_true_iff in Hd as [Hc Hs].
  pose proof (is_digit_range c Hc) as Hr.
  unfold ParseInt.
  destruct (Z.eqb_spec (byte_of c) 43); [lia|].
  destruct (Z.eqb_spec (byte_of c) 45); [lia|].
  unfold ParseUint.
  change (negb ((2 <=? 10) && (10 <=? 36))) with false.
  change ((32 <? 1) || (32 >? 64)) with false.
  cbv iota. rewrite HP. cbv iota beta.
  change (2 ^ (32 - 1)) with 2147483648.
  destruct (Z.geb_spec (decimal_from 0 (String c s)) 2147483648); [lia|].
  simpl andb. cbv iota.
  unfold int64.
  change (2 ^ 63) with 9223372036854775808.
  change (2 ^ 64) with 18446744073709551616.
  rewrite Z.mod_small by lia.
  f_equal. lia.
Qed.

Lemma parsed_SSID_decimal (ds : string) :
  is_decimal ds = true -> decimal_value ds <= 255 ->
  parsed_SSID ds = decimal_value ds.
Proof.
  intros Hd Hv. unfold parsed_SSID. rewrite (ParseInt_decimal ds Hd Hv).
  assert (0 <= decimal_value ds).
  { destruct ds; [discriminate|]. apply (decimal_from_ge _ 0); [exact Hd|lia]. }
  destruct (Z.geb_spec (decimal_value ds) 0); [|lia].
  destruct (Z.leb_spec (decimal_value ds) 255); [|lia].
  simpl. unfold uint8. apply Z.mod_small. lia.
Qed.

Lemma FormatUint_ok_all :
  forallb FormatUint_ok (List.map Z.of_nat (seq 0 256)) = true.
Proof. vm_compute. reflexivity. Qed.

(** What [%d] prints for a uint8 is a decimal numeral that writes it. *)
Lemma FormatUint_decimal (n : Z) :
  0 <= n <= 255 ->
  is_decimal (FormatUint n) = true /\ decimal_value (FormatUint n) = n.
Proof.
  intros Hn.
  pose proof FormatUint_ok_all as H.
  rewrite forallb_forall in H.
  specialize (H n).
  assert (Hin : In n (List.map Z.of_nat (seq 0 256))).
  { apply in_map_iff. exists (Z.to_nat n). split; [lia|].
    apply in_seq. lia. }
  specialize (H Hin). unfold FormatUint_ok in H.
  apply andb_true_iff in H as [H1 H2]. split; [exact H1|]. lia.
Qed.

Lemma AddressFromString_decimal (call ds : string) :
  has_dash call = false ->
  is_decimal ds = true ->
  decimal_value ds <= 255 ->
  AddressFromString (call ++ "-" ++ ds) =
  Ret {| Call := call; SSID := decimal_value ds |}.
Proof.
  intros Hcall Hds Hv.
  rewrite AddressFromString_eq. unfold SSID_field.
  change ("-" ++ ds) with (String dash ds).
  rewrite before_dash_app, after_dash_app by assumption.
  assert (Hnd : has_dash ds = false).
  { apply all_digits_no_dash. destruct ds; [discriminate|exact Hds]. }
  rewrite (before_dash_no_dash ds Hnd).
  rewrite parsed_SSID_decimal by assumption.
  reflexivity.
Qed.

Lemma Address_String_normal (call : string) (n : Z) :
  0 <= n ->
  Address_String {| Call := call; SSID := n |} =
  (if n =? 0 then call else call ++ "-" ++ FormatUint n).
Proof.
  intros Hn. unfold Address_String. simpl.
  destruct (Z.eqb_spec n 0) as [->|Hne]; [reflexivity|].
  destruct (Z.gtb_spec n 0); [reflexivity|lia].
Qed.

(** Formatting an address whose call sign has no dash, parsing the text and
    formatting again gives the same text. *)
Lemma Address_String_fixed_point (a : Address) :
  has_dash (Call a) = false ->
  0 <= SSID a <= 255 ->
  exists b, AddressFromString (Address_String a) = Ret b /\
            Address_String b = Address_String a.
Proof.
  intros Hc Hs. destruct a as [call n]. simpl in *.
  destruct (FormatUint_decimal n Hs) as [Hd Hv].
  rewrite Address_String_normal by lia.
  destruct (Z.eqb_spec n 0) as [->|Hne].
  - rewrite AddressFromString_eq. unfold SSID_field.
    rewrite (after_dash_no_dash call Hc), (before_dash_no_dash call Hc).
    eexists. split; reflexivity.
  - rewrite AddressFromString_decimal by (try assumption; lia).
    rewrite Hv. eexists. split; [reflexivity|].
    rewrite Address_String_normal by lia.
    destruct (Z.eqb_spec n 0); [contradiction|reflexivity].
Qed.

(** C4: for a call sign without dash and an SSID [n] in [0,255] written as
    any decimal numeral [ds], AddressFromString of "call-ds" is the address
    (call, n), and Address.String of it is the normalized text: the bare call
    sign when [n] is 0, and "call-" followed by the decimal rendering of [n]
    otherwise; that rendering is itself a decimal numeral writing [n], so the
    normalized text is a fixed point of parse-then-format. *)
Theorem AddressFromString_String_roundtrip (call ds : string) (n : Z) :
  has_dash call = false ->
  0 <= n <= 255 ->
  is_decimal ds = true ->
  decimal_value ds = n ->
  AddressFromString (call ++ "-" ++ ds) = Ret {| Call := call; SSID := n |} /\
  Address_String {| Call := call; SSID := n |} =
    (if n =? 0 then call else call ++ "-" ++ FormatUint n) /\
  is_decimal (FormatUint n) = true /\
  decimal_value (FormatUint n) = n.
Proof.
  intros Hcall Hn Hds Hv. subst n.
  split; [|split; [|apply FormatUint_decimal; exact Hn]].
  - apply AddressFromString_decimal; [assumption..|lia].
  - apply Address_String_normal. lia.
Qed.

Lemma AddressFromString_String_roundtrip_witness :
  AddressFromString "N0CALL-007" = Ret {| Call := "N0CALL"; SSID := 7 |} /\
  Address_String {| Call := "N0CALL"; SSID := 7 |} = "N0CALL-7" /\
  is_decimal (FormatUint 7) = true /\
  decimal_value (FormatUint 7) = 7.
Proof.
  apply (AddressFromString_String_roundtrip "N0CALL" "007" 7);
    [reflexivity | lia | reflexivity | reflexivity].
Defined.

(** C5, as the code has it: when the SSID field (the text between the first
    dash and the next dash or the end) is malformed (not a number, empty as
    it is when a minus sign follows the dash, or out of [0,255]),
    AddressFromString returns, without panic or error, the address whose
    call sign is the text before the first dash and whose SSID is 0. *)
Theorem AddressFromString_malformed_field (str fld : string) :
  SSID_field str = Some fld ->
  malformed_SSID fld = true ->
  AddressFromString str = Ret {| Call := before_dash str; SSID := 0 |}.
Proof.
  intros Hf Hm. rewrite AddressFromString_eq, Hf.
  unfold malformed_SSID in Hm. unfold parsed_SSID.
  destruct (ParseInt fld 10 32) as [v [e|]]; [reflexivity|].
  destruct (Z.geb_spec v 0); destruct (Z.leb_spec v 255); simpl;
    try reflexivity.
  apply orb_true_iff in Hm as [Hm|Hm];
    [apply Z.ltb_lt in Hm|apply Z.gtb_lt in Hm]; lia.
Qed.

Lemma AddressFromString_malformed_field_witness :
  AddressFromString "N0CALL-2x6" =
  Ret {| Call := before_dash "N0CALL-2x6"; SSID := 0 |}.
Proof.
  apply (AddressFromString_malformed_field "N0CALL-2x6" "2x6"); reflexivity.
Defined.

(** C5 as stated fails: the text after the first dash of "N0CALL-5-7" is
    "5-7", which is no number, and the SSID parsed is 5. *)
Lemma AddressFromString_malformed_suffix_counterexample :
  ~ (forall str suffix : string,
       after_dash str = Some suffix ->
       malformed_SSID suffix = true ->
       exists a, AddressFromString str = Ret a /\ SSID a = 0 /\
                 Call a = before_dash str).
Proof.
  intros H.
  destruct (H "N0CALL-5-7" "5-7" eq_refl eq_refl) as (a & Ha & Hs & _).
  vm_compute in Ha. inversion Ha; subst a. discriminate Hs.
Qed.

(** ** Connection: Read and Write *)

Example Conn_Read_nil :
  fst (Conn_Read None [0; 0; 0] (world_of good_kernel)) =
  Done ([0; 0; 0], 0, Some (Errno EINVAL)).
Proof. reflexivity. Qed.

Example Error_ENOTCONN :
  Error (Errno ENOTCONN) = "transport endpoint is not connected".
Proof. reflexivity. Qed.

Example Error_EMSGSIZE : Error (Errno EMSGSIZE) = "message too long".
Proof. reflexivity. Qed.

(** C6: when the read of the underlying handle gives a path error for the
    "transport endpoint is not connected" condition (ENOTCONN, or any cause
    with that text), Conn.Read returns io.EOF with the handle's count; every
    other result of the handle, error or not, is returned as it is. *)
Theorem Conn_Read_hangup_is_EOF (c : Conn) (p p' : list Z) (n : Z)
    (err : option error) (w w' : World) :
  rwc_Read (conn_rwc c) p w = (Done (p', n, err), w') ->
  (forall op path,
     err = Some (PathError op path (Errno ENOTCONN)) ->
     Conn_Read (Some c) p w = (Done (p', n, Some io_EOF), w')) /\
  (hangs_up err ->
     Conn_Read (Some c) p w = (Done (p', n, Some io_EOF), w')) /\
  (~ hangs_up err ->
     Conn_Read (Some c) p w = (Done (p', n, err), w')).
Proof.
  intros Hr. unfold Conn_Read, bind. rewrite Hr.
  assert (Hh : hangs_up err ->
    match err with
    | Some (PathError _ _ perr_Err) =>
        if (Error perr_Err =? "transport endpoint is not connected")%string
        then ret (p', n, Some io_EOF) else ret (p', n, err)
    | _ => ret (p', n, err)
    end w' = (Done (p', n, Some io_EOF), w')).
  { intros (op & path & e & -> & He). rewrite He. reflexivity. }
  split; [|split].
  - intros op path ->. apply Hh.
    exists op, path, (Errno ENOTCONN). split; reflexivity.
  - exact Hh.
  - intros Hn. destruct err as [[x|s|op path e|sc e]|]; try reflexivity.
    destruct (String.eqb_spec (Error e) "transport endpoint is not connected")
      as [He|He]; [|reflexivity].
    exfalso. apply Hn. exists op, path, e. split; [reflexivity|exact He].
Qed.

Lemma Conn_Read_hangup_is_EOF_witness :
  rwc_Read (conn_rwc a_conn) [0; 0; 0] (world_of hangup_kernel) =
    (Done ([0; 0; 0], 0, Some (PathError "read" "radio0" (Errno ENOTCONN))),
     hangup_read_world) /\
  Conn_Read (Some a_conn) [0; 0; 0] (world_of hangup_kernel) =
    (Done ([0; 0; 0], 0, Some io_EOF), hangup_read_world).
Proof.
  split; [reflexivity|].
  apply (proj1 (Conn_Read_hangup_is_EOF a_conn [0; 0; 0] [0; 0; 0] 0
                  (Some (PathError "read" "radio0" (Errno ENOTCONN)))
                  (world_of hangup_kernel) hangup_read_world eq_refl)
           "read" "radio0" eq_refl).
Defined.

(** C7: when the write of the underlying handle gives a path error for the
    "message too long" condition (EMSGSIZE, or any cause with that text),
    Conn.Write returns ErrMessageTooLong with the handle's count; every other
    result of the handle, error or not, is returned as it is. *)
Theorem Conn_Write_too_long (c : Conn) (p : list Z) (n : Z)
    (err : option error) (w w' : World) :
  rwc_Write (conn_rwc c) p w = (Done (n, err), w') ->
  (forall op path,
     err = Some (PathError op path (Errno EMSGSIZE)) ->
     Conn_Write (Some c) p w = (Done (n, Some ErrMessageTooLong), w')) /\
  (too_long err ->
     Conn_Write (Some c) p w = (Done (n, Some ErrMessageTooLong), w')) /\
  (~ too_long err ->
     Conn_Write (Some c) p w = (Done (n, err), w')).
Proof.
  intros Hr. unfold Conn_Write, bind. rewrite Hr.
  assert (Hh : too_long err ->
    match err with
    | Some (PathError _ _ perr_Err) =>
        if (Error perr_Err =? "message too long")%string
        then ret (n, Some ErrMessageTooLong) else ret (n, err)
    | _ => ret (n, err)
    end w' = (Done (n, Some ErrMessageTooLong), w')).
  { intros (op & path & e & -> & He). rewrite He. reflexivity. }
  split; [|split].
  - intros op path ->. apply Hh.
    exists op, path, (Errno EMSGSIZE). split; reflexivity.
  - exact Hh.
  - intros Hn. destruct err as [[x|s|op path e|sc e]|]; try reflexivity.
    destruct (String.eqb_spec (Error e) "message too long")
      as [He|He]; [|reflexivity].
    exfalso. apply Hn. exists op, path, e. split; [reflexivity|exact He].
Qed.

Lemma Conn_Write_too_long_witness :
  rwc_Write (conn_rwc a_conn) [1; 2; 3] (world_of hangup_kernel) =
    (Done (0, Some (PathError "write" "radio0" (Errno EMSGSIZE))),
     hangup_write_world) /\
  Conn_Write (Some a_conn) [1; 2; 3] (world_of hangup_kernel) =
    (Done (0, Some ErrMessageTooLong), hangup_write_world).
Proof.
  split; [reflexivity|].
  apply (proj1 (Conn_Write_too_long a_conn [1; 2; 3] 0
                  (Some (PathError "write" "radio0" (Errno EMSGSIZE)))
                  (world_of hangup_kernel) hangup_write_world eq_refl)
           "write" "radio0" eq_refl).
Defined.

(** ** Dial *)

(** C8: DialNetROM is DialNetROMTimeout with timeout 0, and connectTimeout
    with timeout 0 is the plain connect: its result is the one of the
    kernel's connect, and connect is the only call it makes (no SetNonblock,
    no select, no close). *)
Theorem DialNetROM_is_timeout_zero :
  (forall fuel nrPort mycall targetcall,
     DialNetROM fuel nrPort mycall targetcall =
     DialNetROMTimeout fuel nrPort mycall targetcall 0) /\
  (forall fuel sock a w,
     connectTimeout fuel sock a 0 w = fd_connect sock a w /\
     connectTimeout fuel sock a 0 w =
       (Done (r_err (kernel w (trace w) (SysConnect sock a))),
        {| kernel := kernel w; trace := SysConnect sock a :: trace w;
           open_fds := open_fds w; chans := chans w;
           numNRPorts := numNRPorts w |})).
Proof.
  split; [reflexivity|]. intros fuel sock a w. split; reflexivity.
Qed.

Example DialNetROM_blocking_trace :
  rev (trace (snd (DialNetROM 0 "radio0" "N0CALL-1" "N0CALL-2"
                     (world_of good_kernel)))) =
  [LibLoadPorts; LibGetDev "radio0"; LibAton "N0CALL-1"; LibGetAddr "radio0";
   LibAton ""; LibAton "N0CALL-2"; SysSocket AF_NETROM SOCK_SEQPACKET 0;
   SysBind 3 {| sax25_family := 0; sax25_call := []; sax25_ndigis := 0;
                fsa_digipeater := [] |};
   SysConnect 3 {| sax25_family := AF_NETROM; sax25_call := [];
                   sax25_ndigis := 0; fsa_digipeater := [] |}].
Proof. reflexivity. Qed.

Section ConnectTimeout.
Variables (fuel : nat) (sock : Z) (a : ax25Addr) (timeout : Z) (w : World).
Variables (fdset : FdSet) (maxFd : Z).

Hypothesis timeout_nz : timeout <> 0.
Hypothesis nonblock_ok : r_err (kernel w (trace w) (ct_nonblock sock)) = None.
Hypothesis in_progress :
  r_err (kernel w (ct_trace_connect w sock) (ct_connect sock a)) =
  Some (Errno EINPROGRESS).
Hypothesis fdSet_ok : fdSet new_FdSet [sock] = Ret (fdset, maxFd).
Hypothesis woke : 0 < r_n (ct_woken w sock a maxFd fdset timeout).
Hypothesis read_ok : r_err (ct_pending w sock a maxFd fdset timeout) = None.

(** C1, as the code has it: in connectTimeout with a non-zero timeout, once
    connect is in progress, the wait has woken (select gave n > 0) and the
    pending error was read, a pending error that is not 0 and is none of
    EINPROGRESS, EALREADY and EINTR ends the attempt: the socket is closed
    and that error is returned. *)
Theorem connectTimeout_pending_error_fails :
  r_n (ct_pending w sock a maxFd fdset timeout) <> 0 ->
  uint64 (r_n (ct_pending w sock a maxFd fdset timeout)) <> EINPROGRESS ->
  uint64 (r_n (ct_pending w sock a maxFd fdset timeout)) <> EALREADY ->
  uint64 (r_n (ct_pending w sock a maxFd fdset timeout)) <> EINTR ->
  exists w',
    connectTimeout (S fuel) sock a timeout w =
      (Done (Some (Errno (uint64 (r_n (ct_pending w sock a maxFd fdset timeout))))),
       w') /\
    trace w' =
      SysClose sock :: ct_getsockopt sock ::
      ct_trace_getsockopt w sock a maxFd fdset timeout /\
    sock ∉ open_fds w'.
Proof.
  unfold ct_woken, ct_pending, ct_trace_getsockopt, ct_trace_select,
    ct_trace_connect, ct_select, ct_getsockopt, ct_connect, ct_nonblock in *.
  intros H0 H1 H2 H3.
  unfold connectTimeout.
  destruct (Z.eqb_spec timeout 0) as [|_]; [contradiction|].
  run_unfold. run_world.
  rewrite nonblock_ok. run_world.
  rewrite in_progress.
  cbn [is_nil is_errno negb]. rewrite Z.eqb_refl. cbn [negb].
  rewrite fdSet_ok. run_world.
  unfold bind, call, ret. run_world.
  match goal with
  | |- context [r_n ?r <? 0] => destruct (Z.ltb_spec (r_n r) 0) as [|_]; [lia|]
  end.
  run_world.
  match goal with
  | |- context [r_n ?r >? 0] => destruct (Z.gtb_spec (r_n r) 0) as [_|]; [|lia]
  end.
  run_world. rewrite read_ok. cbn [is_nil negb is_errno].
  match goal with
  | |- context [r_n ?r =? 0] => destruct (Z.eqb_spec (r_n r) 0); [contradiction|]
  end.
  match goal with
  | |- context [?x =? EINPROGRESS] =>
      destruct (Z.eqb_spec x EINPROGRESS); [contradiction|]
  end.
  match goal with
  | |- context [?x =? EALREADY] =>
      destruct (Z.eqb_spec x EALREADY); [contradiction|]
  end.
  match goal with
  | |- context [?x =? EINTR] => destruct (Z.eqb_spec x EINTR); [contradiction|]
  end.
  cbn. eexists. split; [reflexivity|]. split; [reflexivity|].
  cbn [open_fds]. intros Hin. apply elem_of_difference in Hin as [_ Hn].
  apply Hn. apply elem_of_singleton. reflexivity.
Qed.
End ConnectTimeout.

Lemma connectTimeout_pending_error_fails_witness :
  exists w',
    connectTimeout 1 3 peer_addr (5 * second)
      (world_of (pending_kernel ECONNREFUSED)) =
      (Done (Some (Errno ECONNREFUSED)), w') /\
    trace w' =
      [SysClose 3; SysGetsockoptInt 3 SOL_SOCKET SO_ERROR;
       SysSelect 4 None (Some (fds_of [3])) None (Some (5, 0));
       SysConnect 3 peer_addr; SysSetNonblock 3 true] /\
    3 ∉ open_fds w'.
Proof.
  apply (connectTimeout_pending_error_fails 0 3 peer_addr (5 * second)
           (world_of (pending_kernel ECONNREFUSED)) (fds_of [3]) 3);
    vm_compute; first [reflexivity | discriminate].
Defined.

(** C1 as stated fails.  With EINPROGRESS or EALREADY pending after the
    wake-up there is no second wait: select is called once and the attempt
    ends as connected, whatever the fuel left for further turns.  With EINTR
    pending, another non-zero error, the attempt does not fail either and the
    socket is not closed. *)
Lemma connectTimeout_pending_counterexample :
  (fst (pending_connect EINPROGRESS) = Done None /\
   count_selects (trace (snd (pending_connect EINPROGRESS))) = 1%nat) /\
  (fst (pending_connect EALREADY) = Done None /\
   count_selects (trace (snd (pending_connect EALREADY))) = 1%nat) /\
  (fst (pending_connect EINTR) = Done None /\
   ~ In (SysClose 3) (trace (snd (pending_connect EINTR)))).
Proof.
  repeat split; try reflexivity.
  vm_compute. intros H.
  repeat (destruct H as [H|H]; [discriminate H|]). exact H.
Qed.

(** C2 fails on the code: when bind fails, DialNetROMTimeout returns the
    error with the socket it made still open, and never calls close. *)
Theorem DialNetROMTimeout_bind_failure_leaks :
  fst failed_bind_dial = Done (None, Some (Errno EADDRINUSE)) /\
  In (SysSocket AF_NETROM SOCK_SEQPACKET 0) (trace (snd failed_bind_dial)) /\
  3 ∈ open_fds (snd failed_bind_dial) /\
  ~ In (SysClose 3) (trace (snd failed_bind_dial)).
Proof.
  split; [|split; [|split]].
  - vm_compute. reflexivity.
  - vm_compute. tauto.
  - refine (bool_decide_unpack _ _). vm_compute. exact I.
  - vm_compute. intros H.
    repeat (destruct H as [H|H]; [discriminate H|]). exact H.
Qed.

(** The sibling path: when the connect fails, the socket is closed. *)
Example DialNetROMTimeout_connect_failure_closes :
  fst refused_dial = Done (None, Some (Errno ECONNREFUSED)) /\
  In (SysClose 3) (trace (snd refused_dial)) /\
  3 ∉ open_fds (snd refused_dial).
Proof.
  split; [|split].
  - vm_compute. reflexivity.
  - vm_compute. tauto.
  - refine (bool_decide_unpack _ _). vm_compute. exact I.
Qed.

(** ** Listener *)

Section WaitRead.
Variables (fuel : nat) (sock : Z) (cancel : chan) (w : World).
Variables (fdset : FdSet) (maxFd : Z).

Hypothesis pipe_ok : r_err (wr_pipe w) = None.
Hypothesis fdSet_ok :
  fdSet new_FdSet [sock; r_n (wr_pipe w)] = Ret (fdset, maxFd).
Hypothesis select_n : 0 <= r_n (wr_select w sock maxFd fdset).
Hypothesis select_err : r_err (wr_select w sock maxFd fdset) = None.

(** The run of [waitRead] once select has returned without error: one turn
    of the loop, then the deferred calls. *)
Lemma waitRead_run (b : bool) :
  fdIsSet (r_rfds (wr_select w sock maxFd fdset)) sock = Ret b ->
  waitRead (S fuel) sock cancel w =
    (Done (if b then None else Some (Errno EINVAL)),
     wr_world_end w sock maxFd fdset).
Proof.
  unfold wr_world_end, wr_trace_end, wr_select, wr_trace_select,
    wr_select_call, wr_pipe in *.
  intros Hb.
  unfold waitRead. run_unfold. run_world.
  rewrite pipe_ok.
  cbn [File_Fd os_NewFile file_fd].
  rewrite fdSet_ok.
  unfold bind, call, ret. run_world.
  rewrite select_err.
  match goal with
  | |- context [r_n ?r <? 0] => destruct (Z.ltb_spec (r_n r) 0) as [|_]; [lia|]
  end.
  run_world. rewrite Hb.
  assert (Hl : (chans w ++ [false])%list !! length (chans w) = Some false)
    by (apply list_lookup_middle; reflexivity).
  destruct b; run_world; rewrite Hl; run_world;
    match goal with
    | |- context [match r_err ?k with _ => _ end] => destruct (r_err k)
    end; reflexivity.
Qed.

(** C9: when the select of waitRead returns without error, waitRead returns
    nil if the socket is marked in the set select returned, whether or not
    the pipe's read end is marked too, and syscall.EINVAL if the socket is
    not marked. *)
Theorem waitRead_socket_wins (b : bool) :
  fdIsSet (r_rfds (wr_select w sock maxFd fdset)) sock = Ret b ->
  fst (waitRead (S fuel) sock cancel w) =
    Done (if b then None else Some (Errno EINVAL)).
Proof. intros Hb. rewrite (waitRead_run b Hb). reflexivity. Qed.
End WaitRead.

Lemma waitRead_socket_wins_witness :
  fdIsSet (fds_of [3; 4]) 3 = Ret true /\
  fdIsSet (fds_of [3; 4]) 4 = Ret true /\
  fst (waitRead 1 3 (Some 0%nat) (listening_world tie_kernel)) = Done None.
Proof.
  split; [reflexivity|]. split; [reflexivity|].
  apply (waitRead_socket_wins 0 3 (Some 0%nat) (listening_world tie_kernel)
           (fds_of [3; 4]) 4 eq_refl eq_refl
           ltac:(vm_compute; discriminate) eq_refl true eq_refl).
Defined.

Example waitRead_cancelled :
  fst (waitRead 1 3 (Some 0%nat) (listening_world cancel_kernel)) =
  Done (Some (Errno EINVAL)).
Proof. reflexivity. Qed.

Section Accept.
Variables (fuel : nat) (ln : netromListener) (w : World).
Variables (fdset : FdSet) (maxFd : Z).

Hypothesis pipe_ok : r_err (wr_pipe w) = None.
Hypothesis fdSet_ok :
  fdSet new_FdSet [ln_sock ln; r_n (wr_pipe w)] = Ret (fdset, maxFd).
Hypothesis select_n : 0 <= r_n (wr_select w (ln_sock ln) maxFd fdset).
Hypothesis select_err : r_err (wr_select w (ln_sock ln) maxFd fdset) = None.

End Accept.



Example Accept_select_fails :
  fst failed_select_accept = fst cancelled_accept.
Proof. reflexivity. Qed.

(** C10: on a listener whose channel is open, Close returns, and a second
    Close then panics with "close of closed channel", returning no error and
    making no further call. *)
Theorem netromListener_Close_twice_panics (ln : netromListener) (w : World)
    (i : nat) :
  ln_close ln = Some i ->
  chans w !! i = Some false ->
  exists e w1,
    netromListener_Close ln w = (Done e, w1) /\
    netromListener_Close ln w1 = (Panicked "close of closed channel", w1).
Proof.
  intros Hch Hopen.
  unfold netromListener_Close. run_unfold.
  rewrite Hch, Hopen. cbn.
  eexists _, _. split; [reflexivity|].
  cbn. rewrite list_lookup_insert_eq; [reflexivity|].
  apply lookup_lt_Some in Hopen. exact Hopen.
Qed.

Lemma netromListener_Close_twice_panics_witness :
  exists e w1,
    netromListener_Close a_listener (listening_world good_kernel) =
      (Done e, w1) /\
    netromListener_Close a_listener w1 =
      (Panicked "close of closed channel", w1).
Proof.
  apply (netromListener_Close_twice_panics a_listener
           (listening_world good_kernel) 0%nat); reflexivity.
Defined.

(** A listener made by ListenNetROM has its channel open. *)
Example ListenNetROM_channel_open :
  match ListenNetROM "radio0" "N0CALL-1" (world_of good_kernel) with
  | (Done (Some ln, None), w) =>
      ln_sock ln = 3 /\ ln_close ln = Some 0%nat /\
      chans w !! 0%nat = Some false
  | _ => False
  end.
Proof. vm_compute. repeat split; reflexivity. Qed.

(** * Further properties *)

Lemma fd_mask_small (i : Z) :
  0 <= i -> i mod 64 < 63 -> fd_mask i 64 = 2 ^ (i mod 64).
Proof.
  intros Hi Hk. unfold fd_mask.
  rewrite Z.rem_mod_nonneg by lia.
  pose proof (Z.mod_pos_bound i 64 ltac:(lia)) as Hb.
  unfold uint64. rewrite (Z.mod_small (i mod 64)) by (change (2 ^ 64) with 18446744073709551616; lia).
  destruct (Z.geb_spec (i mod 64) 64); [lia|].
  rewrite Z.shiftl_1_l. unfold int64.
  assert (0 < 2 ^ (i mod 64)) by (apply Z.pow_pos_nonneg; lia).
  assert (2 ^ (i mod 64) < 2 ^ 63) by (apply Z.pow_lt_mono_r; lia).
  rewrite Z.mod_small; [lia|].
  change (2 ^ 64) with (2 ^ 63 + 2 ^ 63). lia.
Qed.

Lemma fd_mask_top (i : Z) :
  0 <= i -> i mod 64 = 63 -> fd_mask i 64 = Z.lnot (Z.ones 63).
Proof.
  intros Hi Hk. unfold fd_mask.
  rewrite Z.rem_mod_nonneg by lia. rewrite Hk. reflexivity.
Qed.

Lemma fd_mask_bits (i j : Z) :
  0 <= i -> 0 <= j ->
  Z.testbit (fd_mask i 64) j =
  if i mod 64 <? 63 then j =? i mod 64 else 63 <=? j.
Proof.
  intros Hi Hj.
  pose proof (Z.mod_pos_bound i 64 ltac:(lia)) as Hb.
  destruct (Z.ltb_spec (i mod 64) 63) as [Hk|Hk].
  - rewrite fd_mask_small by assumption.
    rewrite Z.pow2_bits_eqb by lia. apply Z.eqb_sym.
  - rewrite fd_mask_top by lia.
    rewrite Z.lnot_spec by assumption.
    rewrite Z.testbit_ones_nonneg by lia.
    destruct (Z.ltb_spec j 63), (Z.leb_spec 63 j); try lia; reflexivity.
Qed.

Lemma fd_mask_int64 (i : Z) : 0 <= i -> int64_bits (fd_mask i 64).
Proof.
  intros Hi j Hj. rewrite !fd_mask_bits by lia.
  pose proof (Z.mod_pos_bound i 64 ltac:(lia)) as Hb.
  destruct (Z.ltb_spec (i mod 64) 63).
  - destruct (Z.eqb_spec j (i mod 64)), (Z.eqb_spec 63 (i mod 64)); try lia; reflexivity.
  - destruct (Z.leb_spec 63 j), (Z.leb_spec 63 63); try lia; reflexivity.
Qed.

Lemma int64_bits_0 : int64_bits 0.
Proof. intros j _. rewrite !Z.bits_0. reflexivity. Qed.

Lemma int64_bits_lor (a b : Z) :
  int64_bits a -> int64_bits b -> int64_bits (Z.lor a b).
Proof.
  intros Ha Hb j Hj. rewrite !Z.lor_spec, (Ha j Hj), (Hb j Hj). reflexivity.
Qed.

(** Testing an element against the mask of a descriptor reads one bit. *)
Lemma land_fd_mask (b i : Z) :
  int64_bits b -> 0 <= i ->
  negb (Z.land b (fd_mask i 64) =? 0) = Z.testbit b (i mod 64).
Proof.
  intros Hb Hi.
  pose proof (Z.mod_pos_bound i 64 ltac:(lia)) as Hk.
  assert (Hland : Z.land b (fd_mask i 64) =
                  if Z.testbit b (i mod 64) then fd_mask i 64 else 0).
  { apply Z.bits_inj'. intros j Hj. rewrite Z.land_spec.
    destruct (Z.testbit b (i mod 64)) eqn:Hbit.
    - rewrite fd_mask_bits by lia.
      destruct (Z.ltb_spec (i mod 64) 63).
      + destruct (Z.eqb_spec j (i mod 64)) as [->|]; [rewrite Hbit|]; 
          [reflexivity | apply andb_false_r].
      + assert (i mod 64 = 63) as E by lia. rewrite E in Hbit.
        destruct (Z.leb_spec 63 j); [|apply andb_false_r].
        rewrite (Hb j) by lia. rewrite Hbit. reflexivity.
    - rewrite Z.bits_0. rewrite fd_mask_bits by lia.
      destruct (Z.ltb_spec (i mod 64) 63).
      + destruct (Z.eqb_spec j (i mod 64)) as [->|]; [rewrite Hbit|];
          [reflexivity | apply andb_false_r].
      + assert (i mod 64 = 63) as E by lia. rewrite E in Hbit.
        destruct (Z.leb_spec 63 j); [|apply andb_false_r].
        rewrite (Hb j) by lia. rewrite Hbit. reflexivity. }
  rewrite Hland. destruct (Z.testbit b (i mod 64)); [|reflexivity].
  assert (Hne : fd_mask i 64 <> 0).
  { intros E. pose proof (fd_mask_bits i (i mod 64) Hi ltac:(lia)) as Hm.
    rewrite E, Z.bits_0 in Hm.
    destruct (Z.ltb_spec (i mod 64) 63).
    - rewrite Z.eqb_refl in Hm. discriminate.
    - destruct (Z.leb_spec 63 (i mod 64)); [discriminate|lia]. }
  destruct (Z.eqb_spec (fd_mask i 64) 0); [contradiction|reflexivity].
Qed.

(** Setting the mask of a descriptor sets its bit and no other. *)
Lemma lor_fd_mask_bit (b i k : Z) :
  0 <= i -> 0 <= k < 64 ->
  Z.testbit (Z.lor b (fd_mask i 64)) k = Z.testbit b k || (k =? i mod 64).
Proof.
  intros Hi Hk. rewrite Z.lor_spec, fd_mask_bits by lia.
  pose proof (Z.mod_pos_bound i 64 ltac:(lia)).
  destruct (Z.ltb_spec (i mod 64) 63); [reflexivity|].
  f_equal.
  destruct (Z.leb_spec 63 k), (Z.eqb_spec k (i mod 64)); try lia; reflexivity.
Qed.

Lemma fdIsSet_fd_bit (p : FdSet) (j : Z) :
  length p = 16%nat -> Forall int64_bits p -> fd_in_set_range j ->
  fdIsSet p j = Ret (fd_bit p j).
Proof.
  intros Hlen Hwf Hj. unfold fd_in_set_range in Hj.
  unfold fdIsSet, fd_bit. rewrite Hlen.
  change (Z.of_nat 16) with 16. cbv iota.
  change (Z.quot (32 * 32) 16) with 64.
  rewrite Z.quot_div_nonneg by lia.
  assert (0 <= j / 64 < 16) as Hidx by (split; [apply Z.div_pos|apply Z.div_lt_upper_bound]; lia).
  destruct (Z.ltb_spec (j / 64) 0); [lia|].
  destruct (p !! Z.to_nat (j / 64)) as [b|] eqn:Hb.
  - f_equal. apply land_fd_mask; [|lia].
    eapply Forall_lookup_1 in Hwf; eauto.
  - apply lookup_ge_None in Hb. lia.
Qed.

(** One turn of the loop of fdSet on a descriptor of the set range. *)
Lemma fd_bit_insert (p : FdSet) (b i j : Z) :
  fd_in_set_range i -> fd_in_set_range j ->
  p !! Z.to_nat (i / 64) = Some b ->
  fd_bit (<[Z.to_nat (i / 64) := Z.lor b (fd_mask i 64)]> p) j =
  fd_bit p j || (j =? i).
Proof.
  unfold fd_in_set_range. intros Hi Hj Hb. unfold fd_bit, FdSet in *.
  assert (0 <= i / 64) by (apply Z.div_pos; lia).
  assert (0 <= j / 64) by (apply Z.div_pos; lia).
  pose proof (Z.mod_pos_bound i 64 ltac:(lia)).
  pose proof (Z.mod_pos_bound j 64 ltac:(lia)).
  pose proof (Z.div_mod i 64 ltac:(lia)).
  pose proof (Z.div_mod j 64 ltac:(lia)).
  destruct (Z.eq_dec (j / 64) (i / 64)) as [E|NE].
  - rewrite E. rewrite list_lookup_insert_eq by (apply lookup_lt_Some in Hb; exact Hb).
    rewrite Hb. rewrite lor_fd_mask_bit by lia.
    f_equal.
    destruct (Z.eqb_spec (j mod 64) (i mod 64)), (Z.eqb_spec j i); try lia; reflexivity.
  - rewrite list_lookup_insert_ne by lia.
    destruct (Z.eqb_spec j i) as [->|]; [contradiction|].
    rewrite orb_false_r. reflexivity.
Qed.

Lemma fdSet_loop_set (fds : list Z) : forall (p : FdSet) (m : Z),
  length p = 16%nat -> Forall int64_bits p -> Forall fd_in_set_range fds ->
  exists p' m',
    fdSet_loop 64 p fds m = Ret (p', m') /\
    length p' = 16%nat /\ Forall int64_bits p' /\
    forall j, fd_in_set_range j ->
      fd_bit p' j = fd_bit p j || existsb (Z.eqb j) fds.
Proof.
  unfold FdSet in *.
  induction fds as [|i fds IH]; intros p m Hlen Hwf Hfds.
  - exists p, m. simpl. split; [reflexivity|]. split; [exact Hlen|].
    split; [exact Hwf|]. intros j _. symmetry. apply orb_false_r.
  - apply Forall_cons in Hfds as [Hi Hfds]. pose proof Hi as Hi'. unfold fd_in_set_range in Hi'.
    cbn [fdSet_loop]. unfold FdSet in *.
    destruct (Z.gtb_spec i 1024); [lia|].
    rewrite Z.quot_div_nonneg by lia.
    assert (0 <= i / 64 < 16) as Hidx
      by (split; [apply Z.div_pos|apply Z.div_lt_upper_bound]; lia).
    destruct (Z.ltb_spec (i / 64) 0); [lia|].
    destruct (p !! Z.to_nat (i / 64)) as [b|] eqn:Hb;
      [|apply lookup_ge_None in Hb; lia].
    set (p1 := <[Z.to_nat (i / 64) := Z.lor b (fd_mask i 64)]> p).
    assert (Hlen1 : length p1 = 16%nat) by (unfold p1; rewrite length_insert; exact Hlen).
    assert (Hwf1 : Forall int64_bits p1).
    { unfold p1. apply Forall_insert; [exact Hwf|].
      apply int64_bits_lor; [|apply fd_mask_int64; lia].
      eapply Forall_lookup_1 in Hwf; eauto. }
    destruct (IH p1 (if i >? m then i else m) Hlen1 Hwf1 Hfds)
      as (p' & m' & Hrun & Hlen' & Hwf' & Hbits).
    exists p', m'. split; [exact Hrun|]. split; [exact Hlen'|].
    split; [exact Hwf'|].
    intros j Hj. rewrite (Hbits j Hj).
    pose proof (fd_bit_insert p b i j Hi Hj Hb) as E.
    cbn [existsb]. rewrite orb_assoc. f_equal. exact E.
Qed.

Lemma new_FdSet_int64 : Forall int64_bits new_FdSet.
Proof. repeat constructor; apply int64_bits_0. Qed.

(** X1: on a set of 16 64-bit elements, fdSet of descriptors in [0,1023]
    returns, and
    afterwards fdIsSet answers true for a descriptor of that range exactly
    when it was set before or is one of those added. *)
Theorem fdSet_then_fdIsSet (p : FdSet) (fds : list Z) :
  length p = 16%nat ->
  Forall int64_bits p ->
  Forall fd_in_set_range fds ->
  exists p' m,
    fdSet p fds = Ret (p', m) /\
    forall j b, fd_in_set_range j ->
      fdIsSet p j = Ret b ->
      fdIsSet p' j = Ret (b || existsb (Z.eqb j) fds).
Proof.
  intros Hlen Hwf Hfds.
  destruct (fdSet_loop_set fds p 0 Hlen Hwf Hfds)
    as (p' & m' & Hrun & Hlen' & Hwf' & Hbits).
  exists p', m'. split.
  - unfold fdSet. rewrite Hlen. exact Hrun.
  - intros j b Hj Hold.
    rewrite (fdIsSet_fd_bit p j Hlen Hwf Hj) in Hold. inversion Hold; subst b.
    rewrite (fdIsSet_fd_bit p' j Hlen' Hwf' Hj). rewrite (Hbits j Hj). reflexivity.
Qed.

Lemma fdSet_then_fdIsSet_witness :
  exists p' m,
    fdSet new_FdSet [3; 70] = Ret (p', m) /\
    forall j b, fd_in_set_range j ->
      fdIsSet new_FdSet j = Ret b ->
      fdIsSet p' j = Ret (b || existsb (Z.eqb j) [3; 70]).
Proof.
  apply (fdSet_then_fdIsSet new_FdSet [3; 70]).
  - reflexivity.
  - exact new_FdSet_int64.
  - repeat constructor; unfold fd_in_set_range; lia.
Defined.

Lemma quot64_range (i : Z) : fd_accepted i <-> 0 <= Z.quot i 64 < 16.
Proof.
  unfold fd_accepted.
  pose proof (Z.quot_rem' i 64) as E.
  destruct (Z_le_gt_dec 0 i) as [Hi|Hi].
  - pose proof (Z.rem_bound_pos i 64 Hi ltac:(lia)). lia.
  - pose proof (Z.rem_bound_pos_neg i 64 ltac:(lia) ltac:(lia)). lia.
Qed.

(** What [fdSet] returns for [max], and that it keeps the array's length. *)
Lemma fdSet_loop_max (e : Z) (fds : list Z) :
  forall (p p' : FdSet) (m m' : Z),
  fdSet_loop e p fds m = Ret (p', m') ->
  length p' = length p /\
  m <= m' /\ (forall i, In i fds -> i <= m') /\ (m' = m \/ In m' fds).
Proof.
  unfold FdSet.
  induction fds as [|i fds IH]; intros p p' m m' H; cbn [fdSet_loop] in H.
  - inversion H; subst. split; [reflexivity|]. split; [lia|].
    split; [intros i []|left; reflexivity].
  - unfold FdSet in *.
    destruct (i >? 1024); [discriminate|].
    destruct (Z.quot i e <? 0); [discriminate|].
    destruct (p !! Z.to_nat (Z.quot i e)) as [b|]; [|discriminate].
    apply IH in H as (Hlen & Hm & Hall & Hin).
    rewrite length_insert in Hlen.
    split; [exact Hlen|].
    destruct (Z.gtb_spec i m).
    + split; [lia|]. split.
      * intros k [->|Hk]; [lia|auto].
      * destruct Hin as [->|Hin]; [right; left; reflexivity|right; right; exact Hin].
    + split; [lia|]. split.
      * intros k [->|Hk]; [lia|auto].
      * destruct Hin as [->|Hin]; [left; reflexivity|right; right; exact Hin].
Qed.

Lemma fdSet_loop_accepts (fds : list Z) : forall (p : FdSet) (m : Z),
  length p = 16%nat -> Forall fd_accepted fds ->
  exists r, fdSet_loop 64 p fds m = Ret r.
Proof.
  unfold FdSet.
  induction fds as [|i fds IH]; intros p m Hlen Hfds; cbn [fdSet_loop].
  - eexists. reflexivity.
  - unfold FdSet in *.
    apply Forall_cons in Hfds as [Hi Hfds].
    pose proof (proj1 (quot64_range i) Hi) as Hq. unfold fd_accepted in Hi.
    destruct (Z.gtb_spec i 1024); [lia|].
    destruct (Z.ltb_spec (Z.quot i 64) 0); [lia|].
    destruct (p !! Z.to_nat (Z.quot i 64)) as [b|] eqn:Hb;
      [|apply lookup_ge_None in Hb; lia].
    apply IH; [rewrite length_insert; exact Hlen|exact Hfds].
Qed.

Lemma fdSet_loop_rejects (fds : list Z) : forall (p : FdSet) (m : Z) r,
  length p = 16%nat -> fdSet_loop 64 p fds m = Ret r ->
  Forall fd_accepted fds.
Proof.
  unfold FdSet.
  induction fds as [|i fds IH]; intros p m r Hlen H; cbn [fdSet_loop] in H.
  - constructor.
  - unfold FdSet in *.
    destruct (Z.gtb_spec i 1024); [discriminate|].
    destruct (Z.ltb_spec (Z.quot i 64) 0); [discriminate|].
    destruct (p !! Z.to_nat (Z.quot i 64)) as [b|] eqn:Hb; [|discriminate].
    apply lookup_lt_Some in Hb.
    constructor.
    + apply quot64_range. lia.
    + eapply IH; [|exact H]. rewrite length_insert. exact Hlen.
Qed.

(** X2: on a 16-element set, fdSet returns rather than panics exactly when
    every descriptor lies strictly between -64 and 1024; descriptor 1024 is
    past the array, the guard [i > 1024] lets it through. *)
Theorem fdSet_returns_iff (p : FdSet) (fds : list Z) :
  length p = 16%nat ->
  (exists r, fdSet p fds = Ret r) <-> Forall fd_accepted fds.
Proof.
  intros Hlen. unfold fdSet. rewrite Hlen.
  change (Z.of_nat 16) with 16. cbv iota.
  change (Z.quot (32 * 32) 16) with 64.
  split.
  - intros [r Hr]. eapply fdSet_loop_rejects; eauto.
  - intros H. apply fdSet_loop_accepts; assumption.
Qed.

Lemma fdSet_returns_iff_witness :
  (exists r, fdSet new_FdSet [3; 1024] = Ret r) <-> Forall fd_accepted [3; 1024].
Proof. apply (fdSet_returns_iff new_FdSet [3; 1024]). reflexivity. Defined.

(** X3: when fdSet returns, the array keeps its length and [max] is 0 or one
    of the descriptors, and no descriptor is above it. *)
Theorem fdSet_max (p p' : FdSet) (fds : list Z) (m : Z) :
  fdSet p fds = Ret (p', m) ->
  length p' = length p /\
  0 <= m /\ (forall i, In i fds -> i <= m) /\ (m = 0 \/ In m fds).
Proof.
  unfold fdSet. intros H.
  destruct (Z.of_nat (length p)) eqn:Hl; [discriminate| |];
    apply fdSet_loop_max in H as (Hlen & Hm & Hall & Hin);
    (split; [exact Hlen|]); (split; [exact Hm|]); (split; [exact Hall|]);
    exact Hin.
Qed.

Lemma fdSet_max_witness :
  length (fds_of [3; 70; 4]) = length new_FdSet /\
  0 <= 70 /\ (forall i, In i [3; 70; 4] -> i <= 70) /\
  (70 = 0 \/ In 70 [3; 70; 4]).
Proof. apply (fdSet_max new_FdSet (fds_of [3; 70; 4]) [3; 70; 4] 70). reflexivity. Defined.

Lemma has_dash_before_dash (s : string) : has_dash (before_dash s) = false.
Proof.
  induction s as [|c s IH]; simpl; [reflexivity|].
  destruct (Ascii.eqb c dash) eqn:E; simpl; [reflexivity|].
  rewrite E, IH. reflexivity.
Qed.

Lemma parsed_SSID_range (fld : string) : 0 <= parsed_SSID fld <= 255.
Proof.
  unfold parsed_SSID.
  destruct (ParseInt fld 10 32) as [v [e|]]; [lia|].
  destruct ((v >=? 0) && (v <=? 255)); [|lia].
  unfold uint8. pose proof (Z.mod_pos_bound v 256 ltac:(lia)). lia.
Qed.

(** X4: AddressFromString returns for every string, without panic: the call
    sign is the text before the first dash, it holds no dash, and the SSID
    is in [0,255]. *)
Theorem AddressFromString_total (str : string) :
  exists a,
    AddressFromString str = Ret a /\
    Call a = before_dash str /\
    has_dash (Call a) = false /\
    0 <= SSID a <= 255.
Proof.
  rewrite AddressFromString_eq. eexists. split; [reflexivity|].
  cbn [Call SSID]. split; [reflexivity|]. split; [apply has_dash_before_dash|].
  destruct (SSID_field str); [apply parsed_SSID_range|lia].
Qed.

Lemma AddressFromString_of_String (a : Address) :
  has_dash (Call a) = false ->
  0 <= SSID a <= 255 ->
  AddressFromString (Address_String a) = Ret a.
Proof.
  intros Hc Hs. destruct a as [call n]. cbn [Call SSID] in *.
  destruct (FormatUint_decimal n Hs) as [Hd Hv].
  rewrite Address_String_normal by lia.
  destruct (Z.eqb_spec n 0) as [->|Hne].
  - rewrite AddressFromString_eq. unfold SSID_field.
    rewrite (after_dash_no_dash call Hc), (before_dash_no_dash call Hc).
    reflexivity.
  - rewrite AddressFromString_decimal by (try assumption; lia).
    rewrite Hv. reflexivity.
Qed.

(** X5: formatting an address whose call sign holds no dash and whose SSID
    is in [0,255], then parsing the text, gives the address back. *)
Theorem Address_String_then_FromString (a : Address) :
  has_dash (Call a) = false ->
  0 <= SSID a <= 255 ->
  AddressFromString (Address_String a) = Ret a.
Proof. exact (AddressFromString_of_String a). Qed.

Lemma Address_String_then_FromString_witness :
  AddressFromString (Address_String {| Call := "LA5NTA"; SSID := 15 |}) =
  Ret {| Call := "LA5NTA"; SSID := 15 |}.
Proof.
  apply (Address_String_then_FromString {| Call := "LA5NTA"; SSID := 15 |});
    [reflexivity | cbn; lia].
Defined.

Lemma Address_String_injective (a b : Address) :
  has_dash (Call a) = false -> 0 <= SSID a <= 255 ->
  has_dash (Call b) = false -> 0 <= SSID b <= 255 ->
  Address_String a = Address_String b ->
  a = b.
Proof.
  intros Ha1 Ha2 Hb1 Hb2 E.
  pose proof (AddressFromString_of_String a Ha1 Ha2) as Pa.
  pose proof (AddressFromString_of_String b Hb1 Hb2) as Pb.
  rewrite E in Pa. rewrite Pa in Pb. inversion Pb. reflexivity.
Qed.

(** X6: a text without dash parses to itself as call sign with SSID 0, and
    that address is formatted as the same text. *)
Theorem AddressFromString_no_dash (s : string) :
  has_dash s = false ->
  AddressFromString s = Ret {| Call := s; SSID := 0 |} /\
  Address_String {| Call := s; SSID := 0 |} = s.
Proof.
  intros H. split; [|reflexivity].
  rewrite AddressFromString_eq. unfold SSID_field.
  rewrite (after_dash_no_dash s H), (before_dash_no_dash s H). reflexivity.
Qed.

Lemma AddressFromString_no_dash_witness :
  AddressFromString "" = Ret {| Call := ""; SSID := 0 |} /\
  Address_String {| Call := ""; SSID := 0 |} = "".
Proof. apply (AddressFromString_no_dash ""). reflexivity. Defined.

(** X7: connectTimeout never takes a second turn of its wait loop: one turn
    of fuel is enough whatever the kernel answers, and select is called at
    most once. *)
Theorem connectTimeout_one_wait (fuel : nat) (sock : Z) (a : ax25Addr)
    (timeout : Z) (w : World) :
  connectTimeout (S fuel) sock a timeout w = connectTimeout 1 sock a timeout w /\
  fst (connectTimeout (S fuel) sock a timeout w) <> NoFuel /\
  (count_selects (trace (snd (connectTimeout (S fuel) sock a timeout w))) <=
   S (count_selects (trace w)))%nat.
Proof.
  unfold count_selects, connectTimeout. run_unfold. run_world.
  destruct (timeout =? 0).
  - cbn. repeat split; [discriminate|lia].
  - destruct (r_err (kernel w (trace w) (SysSetNonblock sock true))) as [e0|];
      run_world; [cbn; repeat split; [discriminate|lia]|].
    destruct (r_err (kernel w (SysSetNonblock sock true :: trace w) (SysConnect sock a)))
      as [e1|]; run_world; [|cbn; repeat split; [discriminate|lia]].
    destruct (is_errno (Some e1) EINPROGRESS); run_world;
      [|cbn; repeat split; [discriminate|lia]].
    destruct (fdSet new_FdSet [sock]) as [[fdset maxFd]|msg]; run_world;
      [|cbn; repeat split; [discriminate|lia]].
    unfold bind, call, ret. run_world.
    repeat match goal with
           | |- context [if ?c then _ else _] => destruct c; run_world
           end;
    cbn; repeat split; try discriminate; lia.
Qed.

(** ** connectTimeout, path by path *)

Section ConnectEarly.
Variables (fuel : nat) (sock : Z) (a : ax25Addr) (timeout : Z) (w : World).

Hypothesis timeout_nz : timeout <> 0.

(** X8: with a non-zero timeout, when SetNonblock fails connectTimeout
    returns that error at once: connect is not called and the socket is not
    closed. *)
Theorem connectTimeout_nonblock_fails (e : error) :
  r_err (answer w (ct_nonblock sock)) = Some e ->
  connectTimeout fuel sock a timeout w =
    (Done (Some e), after_call w (ct_nonblock sock)).
Proof.
  unfold answer, after_call, ct_nonblock. intros He.
  unfold connectTimeout.
  destruct (Z.eqb_spec timeout 0) as [|_]; [contradiction|].
  run_unfold. run_world. rewrite He. reflexivity.
Qed.

(** X9: with a non-zero timeout, when connect returns nil or an error other
    than EINPROGRESS, connectTimeout returns that result at once: no wait,
    the socket is neither closed nor put back to blocking mode. *)
Theorem connectTimeout_connect_at_once (err : option error) :
  r_err (answer w (ct_nonblock sock)) = None ->
  r_err (answer (after_call w (ct_nonblock sock)) (ct_connect sock a)) = err ->
  is_errno err EINPROGRESS = false ->
  connectTimeout fuel sock a timeout w =
    (Done err,
     after_call (after_call w (ct_nonblock sock)) (ct_connect sock a)).
Proof.
  unfold answer, after_call, ct_nonblock, ct_connect. cbn [kernel trace].
  intros Hnb Hc Hne.
  unfold connectTimeout.
  destruct (Z.eqb_spec timeout 0) as [|_]; [contradiction|].
  run_unfold. run_world. rewrite Hnb. run_world. rewrite Hc.
  destruct err as [e|]; run_world; [|reflexivity].
  rewrite Hne. reflexivity.
Qed.
End ConnectEarly.

Section ConnectWait.
Variables (fuel : nat) (sock : Z) (a : ax25Addr) (timeout : Z) (w : World).
Variables (fdset : FdSet) (maxFd : Z).

Hypothesis timeout_nz : timeout <> 0.
Hypothesis nonblock_ok : r_err (kernel w (trace w) (ct_nonblock sock)) = None.
Hypothesis in_progress :
  r_err (kernel w (ct_trace_connect w sock) (ct_connect sock a)) =
  Some (Errno EINPROGRESS).
Hypothesis fdSet_ok : fdSet new_FdSet [sock] = Ret (fdset, maxFd).

(** The run of connectTimeout up to its wait loop. *)
Lemma connectTimeout_to_wait :
  connectTimeout (S fuel) sock a timeout w =
  bind (for_loop (S fuel) (connectTimeout_body sock timeout maxFd)
          (fdset, Some (Errno EINPROGRESS)))
    (fun out =>
       match out with
       | inr e => ret e
       | inl (_, err) => bind (syscall_SetNonblock sock false) (fun _ => ret err)
       end)
    (after_call (after_call w (ct_nonblock sock)) (ct_connect sock a)).
Proof.
  unfold ct_trace_connect, ct_connect, ct_nonblock, after_call in *.
  unfold connectTimeout.
  destruct (Z.eqb_spec timeout 0) as [|_]; [contradiction|].
  unfold bind at 1, syscall_SetNonblock at 1, bind at 1, call at 1, ret at 1.
  rewrite nonblock_ok. run_world.
  unfold bind at 1, fd_connect at 1, bind at 1, call at 1, ret at 1.
  run_world. rewrite in_progress.
  cbn [is_nil is_errno negb]. rewrite Z.eqb_refl. cbn [negb].
  unfold bind at 1, lift at 1. rewrite fdSet_ok. reflexivity.
Qed.

(** X10: when the wait returns 0, or is interrupted (n < 0 with EINTR),
    connectTimeout closes the socket and returns the error "Dial timeout". *)
Theorem connectTimeout_times_out :
  r_n (ct_woken w sock a maxFd fdset timeout) = 0 \/
  (r_n (ct_woken w sock a maxFd fdset timeout) < 0 /\
   is_errno (r_err (ct_woken w sock a maxFd fdset timeout)) EINTR = true) ->
  connectTimeout (S fuel) sock a timeout w =
    (Done (Some (errorString "Dial timeout")),
     after_close
       (after_call (after_call (after_call w (ct_nonblock sock))
                      (ct_connect sock a))
          (ct_select maxFd fdset timeout))
       sock).
Proof.
  intros Hn. rewrite connectTimeout_to_wait.
  unfold ct_woken, ct_trace_select, ct_trace_connect, ct_select, ct_connect,
    ct_nonblock, after_close, after_call in *.
  cbn [for_loop]. unfold connectTimeout_body. run_unfold. run_world.
  destruct Hn as [Hn|[Hn He]].
  - rewrite Hn. cbn. reflexivity.
  - rewrite He. match goal with
    | |- context [r_n ?r <? 0] => destruct (Z.ltb_spec (r_n r) 0); [|lia]
    end.
    run_world.
    match goal with
    | |- context [r_n ?r >? 0] => destruct (Z.gtb_spec (r_n r) 0); [lia|]
    end.
    reflexivity.
Qed.

(** X11: when the wait fails (n < 0) with an error other than EINTR,
    connectTimeout closes the socket and returns select's error. *)
Theorem connectTimeout_wait_fails :
  r_n (ct_woken w sock a maxFd fdset timeout) < 0 ->
  is_errno (r_err (ct_woken w sock a maxFd fdset timeout)) EINTR = false ->
  connectTimeout (S fuel) sock a timeout w =
    (Done (r_err (ct_woken w sock a maxFd fdset timeout)),
     after_close
       (after_call (after_call (after_call w (ct_nonblock sock))
                      (ct_connect sock a))
          (ct_select maxFd fdset timeout))
       sock).
Proof.
  intros Hn He. rewrite connectTimeout_to_wait.
  unfold ct_woken, ct_trace_select, ct_trace_connect, ct_select, ct_connect,
    ct_nonblock, after_close, after_call in *.
  cbn [for_loop]. unfold connectTimeout_body. run_unfold. run_world.
  rewrite He.
  match goal with
    | |- context [r_n ?r <? 0] => destruct (Z.ltb_spec (r_n r) 0); [|lia]
    end.
  reflexivity.
Qed.

(** X12: when the wait wakes without error and the pending error read is 0,
    connectTimeout returns nil, leaves the socket open and puts it back to
    blocking mode as its last call. *)
Theorem connectTimeout_connected :
  0 < r_n (ct_woken w sock a maxFd fdset timeout) ->
  r_err (ct_woken w sock a maxFd fdset timeout) = None ->
  r_err (ct_pending w sock a maxFd fdset timeout) = None ->
  r_n (ct_pending w sock a maxFd fdset timeout) = 0 ->
  connectTimeout (S fuel) sock a timeout w =
    (Done None,
     after_call
       (after_call
          (after_call (after_call (after_call w (ct_nonblock sock))
                         (ct_connect sock a))
             (ct_select maxFd fdset timeout))
          (ct_getsockopt sock))
       (SysSetNonblock sock false)).
Proof.
  intros Hn He Hg Hz. rewrite connectTimeout_to_wait.
  unfold ct_pending, ct_trace_getsockopt, ct_woken, ct_trace_select,
    ct_trace_connect, ct_getsockopt, ct_select, ct_connect, ct_nonblock,
    after_close, after_call in *.
  cbn [for_loop]. unfold connectTimeout_body. run_unfold. run_world.
  match goal with
  | |- context [r_n ?r <? 0] => destruct (Z.ltb_spec (r_n r) 0); [lia|]
  end.
  run_world.
  match goal with
  | |- context [r_n ?r >? 0] => destruct (Z.gtb_spec (r_n r) 0); [|lia]
  end.
  run_world. rewrite Hg. run_world. rewrite Hz. cbn [Z.eqb negb andb].
  run_world. rewrite He. reflexivity.
Qed.

(** X13: when the wait wakes but reading the pending error fails,
    connectTimeout closes the socket and returns the error of that reading. *)
Theorem connectTimeout_pending_unreadable (e : error) :
  0 < r_n (ct_woken w sock a maxFd fdset timeout) ->
  r_err (ct_pending w sock a maxFd fdset timeout) = Some e ->
  connectTimeout (S fuel) sock a timeout w =
    (Done (Some e),
     after_close
       (after_call
          (after_call (after_call (after_call w (ct_nonblock sock))
                         (ct_connect sock a))
             (ct_select maxFd fdset timeout))
          (ct_getsockopt sock))
       sock).
Proof.
  intros Hn Hg. rewrite connectTimeout_to_wait.
  unfold ct_pending, ct_trace_getsockopt, ct_woken, ct_trace_select,
    ct_trace_connect, ct_getsockopt, ct_select, ct_connect, ct_nonblock,
    after_close, after_call in *.
  cbn [for_loop]. unfold connectTimeout_body. run_unfold. run_world.
  match goal with
  | |- context [r_n ?r <? 0] => destruct (Z.ltb_spec (r_n r) 0); [lia|]
  end.
  run_world.
  match goal with
  | |- context [r_n ?r >? 0] => destruct (Z.gtb_spec (r_n r) 0); [|lia]
  end.
  run_world. rewrite Hg. reflexivity.
Qed.
End ConnectWait.

Lemma connectTimeout_nonblock_fails_witness :
  connectTimeout 0 3 peer_addr (5 * second) (world_of (nonblock_fails_kernel EBADF)) =
    (Done (Some (Errno EBADF)),
     after_call (world_of (nonblock_fails_kernel EBADF)) (ct_nonblock 3)).
Proof.
  apply (connectTimeout_nonblock_fails 0 3 peer_addr (5 * second)
           (world_of (nonblock_fails_kernel EBADF)));
    [vm_compute; discriminate | reflexivity].
Defined.

Lemma connectTimeout_connect_at_once_witness :
  connectTimeout 0 3 peer_addr (5 * second)
    (world_of (connect_fails_kernel ECONNREFUSED)) =
    (Done (Some (Errno ECONNREFUSED)),
     after_call (after_call (world_of (connect_fails_kernel ECONNREFUSED))
                   (ct_nonblock 3)) (ct_connect 3 peer_addr)).
Proof.
  apply (connectTimeout_connect_at_once 0 3 peer_addr (5 * second)
           (world_of (connect_fails_kernel ECONNREFUSED)));
    [vm_compute; discriminate | reflexivity | reflexivity | reflexivity].
Defined.

Lemma connectTimeout_times_out_witness :
  connectTimeout 1 3 peer_addr (5 * second) (world_of (waiting_kernel 0 None)) =
    (Done (Some (errorString "Dial timeout")),
     after_close
       (after_call (after_call (after_call (world_of (waiting_kernel 0 None))
                                   (ct_nonblock 3))
                      (ct_connect 3 peer_addr))
          (ct_select 3 (fds_of [3]) (5 * second)))
       3).
Proof.
  apply (connectTimeout_times_out 0 3 peer_addr (5 * second)
           (world_of (waiting_kernel 0 None)) (fds_of [3]) 3);
    [vm_compute; discriminate | reflexivity | reflexivity | reflexivity
    | left; reflexivity].
Defined.

Lemma connectTimeout_wait_fails_witness :
  connectTimeout 1 3 peer_addr (5 * second)
    (world_of (waiting_kernel (-1) (Some (Errno EBADF)))) =
    (Done (Some (Errno EBADF)),
     after_close
       (after_call
          (after_call
             (after_call (world_of (waiting_kernel (-1) (Some (Errno EBADF))))
                (ct_nonblock 3))
             (ct_connect 3 peer_addr))
          (ct_select 3 (fds_of [3]) (5 * second)))
       3).
Proof.
  apply (connectTimeout_wait_fails 0 3 peer_addr (5 * second)
           (world_of (waiting_kernel (-1) (Some (Errno EBADF)))) (fds_of [3]) 3);
    [vm_compute; discriminate | reflexivity | reflexivity | reflexivity
    | vm_compute; reflexivity | reflexivity].
Defined.

Lemma connectTimeout_connected_witness :
  connectTimeout 1 3 peer_addr (5 * second) (world_of (pending_kernel 0)) =
    (Done None,
     after_call
       (after_call
          (after_call
             (after_call (after_call (world_of (pending_kernel 0))
                            (ct_nonblock 3))
                (ct_connect 3 peer_addr))
             (ct_select 3 (fds_of [3]) (5 * second)))
          (ct_getsockopt 3))
       (SysSetNonblock 3 false)).
Proof.
  apply (connectTimeout_connected 0 3 peer_addr (5 * second)
           (world_of (pending_kernel 0)) (fds_of [3]) 3);
    [vm_compute; discriminate | reflexivity | reflexivity | reflexivity
    | vm_compute; reflexivity | reflexivity | reflexivity | reflexivity].
Defined.

Lemma connectTimeout_pending_unreadable_witness :
  connectTimeout 1 3 peer_addr (5 * second)
    (world_of (getsockopt_fails_kernel EBADF)) =
    (Done (Some (Errno EBADF)),
     after_close
       (after_call
          (after_call
             (after_call (after_call (world_of (getsockopt_fails_kernel EBADF))
                            (ct_nonblock 3))
                (ct_connect 3 peer_addr))
             (ct_select 3 (fds_of [3]) (5 * second)))
          (ct_getsockopt 3))
       3).
Proof.
  apply (connectTimeout_pending_unreadable 0 3 peer_addr (5 * second)
           (world_of (getsockopt_fails_kernel EBADF)) (fds_of [3]) 3);
    [vm_compute; discriminate | reflexivity | reflexivity | reflexivity
    | vm_compute; reflexivity | reflexivity].
Defined.

(** ** Ports *)

(** X14: with an empty port name, checkPort, DialNetROMTimeout, DialNetROM,
    ListenNetROM and NewNetROMBeacon return the error "Invalid empty nrPort"
    and make no call at all. *)
Theorem empty_port_rejected (fuel : nat) (mycall other message : string)
    (timeout : Z) (w : World) :
  checkPort "" w = (Done (Some (errorString "Invalid empty nrPort")), w) /\
  DialNetROMTimeout fuel "" mycall other timeout w =
    (Done (None, Some (errorString "Invalid empty nrPort")), w) /\
  DialNetROM fuel "" mycall other w =
    (Done (None, Some (errorString "Invalid empty nrPort")), w) /\
  ListenNetROM "" mycall w =
    (Done (None, Some (errorString "Invalid empty nrPort")), w) /\
  NewNetROMBeacon "" mycall other message w =
    (Done (None, Some (errorString "Invalid empty nrPort")), w).
Proof. repeat split; reflexivity. Qed.

(** X15: once loadPorts has returned a positive count without error, the
    count is kept in numNRPorts and a further loadPorts returns it without
    calling the library. *)
Theorem loadPorts_cached (w w' : World) (n : Z) :
  loadPorts w = (Done (n, None), w') ->
  0 < n ->
  numNRPorts w' = n /\ loadPorts w' = (Done (n, None), w').
Proof.
  unfold loadPorts, get_numNRPorts, set_numNRPorts. run_unfold.
  destruct (Z.gtb_spec (numNRPorts w) 0) as [Hc|Hc].
  - intros H Hn. inversion H; subst. split; [reflexivity|].
    destruct (Z.gtb_spec (numNRPorts w') 0); [reflexivity|lia].
  - run_world.
    destruct (r_err (kernel w (trace w) LibLoadPorts)) as [e|];
      [intros H; inversion H|].
    destruct (Z.eqb_spec (r_n (kernel w (trace w) LibLoadPorts)) 0);
      intros H Hn; inversion H; subst.
    cbn [numNRPorts]. split; [reflexivity|].
    destruct (Z.gtb_spec (r_n (kernel w (trace w) LibLoadPorts)) 0); [reflexivity|lia].
Qed.

Lemma loadPorts_cached_witness :
  numNRPorts (snd (loadPorts (world_of good_kernel))) = 1 /\
  loadPorts (snd (loadPorts (world_of good_kernel))) =
    (Done (1, None), snd (loadPorts (world_of good_kernel))).
Proof.
  apply (loadPorts_cached (world_of good_kernel)
           (snd (loadPorts (world_of good_kernel))) 1); [reflexivity|lia].
Defined.

(** X16: when nothing is cached and the library loads 0 ports without error,
    loadPorts returns the error "No NetROM ports configured" and so does
    checkPort for any non-empty port, without looking the port up. *)
Theorem loadPorts_none_configured (w : World) :
  numNRPorts w <= 0 ->
  r_err (answer w LibLoadPorts) = None ->
  r_n (answer w LibLoadPorts) = 0 ->
  loadPorts w =
    (Done (0, Some (errorString "No NetROM ports configured")),
     after_call w LibLoadPorts) /\
  forall nrPort, nrPort <> "" ->
    checkPort nrPort w =
      (Done (Some (errorString "No NetROM ports configured")),
       after_call w LibLoadPorts).
Proof.
  unfold answer, after_call. intros Hc He Hn.
  assert (HL : loadPorts w =
    (Done (0, Some (errorString "No NetROM ports configured")),
     {| kernel := kernel w; trace := LibLoadPorts :: trace w;
        open_fds := open_fds w; chans := chans w; numNRPorts := numNRPorts w |})).
  { unfold loadPorts, get_numNRPorts, set_numNRPorts. run_unfold.
    destruct (Z.gtb_spec (numNRPorts w) 0); [lia|].
    run_world. rewrite He, Hn. reflexivity. }
  split; [exact HL|].
  intros nrPort Hne. unfold checkPort.
  destruct (String.eqb_spec nrPort ""); [contradiction|].
  unfold bind. rewrite HL. reflexivity.
Qed.

Lemma loadPorts_none_configured_witness :
  loadPorts (world_of (no_port_kernel 0 0)) =
    (Done (0, Some (errorString "No NetROM ports configured")),
     after_call (world_of (no_port_kernel 0 0)) LibLoadPorts) /\
  forall nrPort, nrPort <> "" ->
    checkPort nrPort (world_of (no_port_kernel 0 0)) =
      (Done (Some (errorString "No NetROM ports configured")),
       after_call (world_of (no_port_kernel 0 0)) LibLoadPorts).
Proof.
  apply (loadPorts_none_configured (world_of (no_port_kernel 0 0)));
    [cbn; lia | reflexivity | reflexivity].
Defined.

(** X17: for a non-empty port name, once the ports are loaded, checkPort
    asks the library for the port's device and returns ErrPortNotExist when
    there is none, nil otherwise. *)
Theorem checkPort_port_lookup (nrPort : string) (w w1 : World) (n : Z) :
  nrPort <> "" ->
  loadPorts w = (Done (n, None), w1) ->
  checkPort nrPort w =
    (Done (if r_n (answer w1 (LibGetDev nrPort)) =? 0
           then Some ErrPortNotExist else None),
     after_call w1 (LibGetDev nrPort)).
Proof.
  unfold answer, after_call. intros Hne HL. unfold checkPort.
  destruct (String.eqb_spec nrPort ""); [contradiction|].
  unfold bind. rewrite HL. unfold portExists, bind, call, ret. run_world.
  destruct (r_n (kernel w1 (trace w1) (LibGetDev nrPort)) =? 0); reflexivity.
Qed.

Lemma checkPort_port_lookup_witness :
  checkPort "radio9" (world_of (no_port_kernel 2 0)) =
    (Done (Some ErrPortNotExist),
     after_call (snd (loadPorts (world_of (no_port_kernel 2 0))))
       (LibGetDev "radio9")).
Proof.
  apply (checkPort_port_lookup "radio9" (world_of (no_port_kernel 2 0))
           (snd (loadPorts (world_of (no_port_kernel 2 0)))) 2);
    [discriminate | reflexivity].
Defined.

(** ** Dial and Listen, step by step *)

Section Dial.
Variables (fuel : nat) (nrPort mycall targetcall : string) (timeout : Z).
Variables (w w1 w2 w3 w4 : World) (la la' ra : ax25Addr).

Hypothesis port_ok : checkPort nrPort w = (Done None, w1).
Hypothesis local_ok : newNetROMAddr mycall w1 = (Done la, w2).
Hypothesis port_set : setPort la nrPort w2 = (Done (la', None), w3).
Hypothesis remote_ok : newNetROMAddr targetcall w3 = (Done ra, w4).
Hypothesis socket_ok :
  r_err (answer w4 (SysSocket AF_NETROM SOCK_SEQPACKET 0)) = None.

(** The run of DialNetROMTimeout up to bind. *)
Lemma DialNetROMTimeout_to_bind :
  DialNetROMTimeout fuel nrPort mycall targetcall timeout w =
  bind (fd_bind (r_n (answer w4 (SysSocket AF_NETROM SOCK_SEQPACKET 0))) la')
    (fun err =>
       if negb (is_nil err) then ret (None, err)
       else
         bind (connectTimeout fuel
                 (r_n (answer w4 (SysSocket AF_NETROM SOCK_SEQPACKET 0)))
                 ra timeout)
           (fun err =>
              if negb (is_nil err) then
                bind (fd_close (r_n (answer w4 (SysSocket AF_NETROM SOCK_SEQPACKET 0))))
                  (fun _ => ret (None, err))
              else
                ret (Some {| conn_rwc :=
                               File_rwc
                                 (os_NewFile
                                    (r_n (answer w4 (SysSocket AF_NETROM SOCK_SEQPACKET 0)))
                                    nrPort);
                             localAddr := {| addr := la' |};
                             remoteAddr := {| addr := ra |} |},
                     None)))
    (after_open w4 (SysSocket AF_NETROM SOCK_SEQPACKET 0)
       (r_n (answer w4 (SysSocket AF_NETROM SOCK_SEQPACKET 0)))).
Proof.
  unfold answer, after_open in *.
  unfold DialNetROMTimeout.
  unfold bind at 1. rewrite port_ok. run_world.
  unfold bind at 1. rewrite local_ok.
  unfold bind at 1. rewrite port_set. run_world.
  unfold bind at 1. rewrite remote_ok.
  unfold bind at 1, syscall_Socket at 1, bind at 1, call at 1.
  rewrite socket_ok. unfold bind at 1, set_open at 1, ret at 1. run_world.
  reflexivity.
Qed.

(** X18: whatever the environment, when the port and the addresses are set
    up, the socket is made and bind fails, DialNetROMTimeout returns bind's
    error with bind as its last call and the socket still open. *)
Theorem DialNetROMTimeout_bind_fails (e : error) :
  r_err (answer (after_open w4 (SysSocket AF_NETROM SOCK_SEQPACKET 0)
                   (r_n (answer w4 (SysSocket AF_NETROM SOCK_SEQPACKET 0))))
           (SysBind (r_n (answer w4 (SysSocket AF_NETROM SOCK_SEQPACKET 0))) la'))
    = Some e ->
  exists w',
    DialNetROMTimeout fuel nrPort mycall targetcall timeout w =
      (Done (None, Some e), w') /\
    trace w' =
      SysBind (r_n (answer w4 (SysSocket AF_NETROM SOCK_SEQPACKET 0))) la' ::
      SysSocket AF_NETROM SOCK_SEQPACKET 0 :: trace w4 /\
    r_n (answer w4 (SysSocket AF_NETROM SOCK_SEQPACKET 0)) ∈ open_fds w'.
Proof.
  intros Hb. rewrite DialNetROMTimeout_to_bind.
  unfold answer, after_open in *. cbn [kernel trace] in Hb.
  unfold fd_bind, bind, call, ret. run_world. rewrite Hb. run_world.
  eexists. split; [reflexivity|]. split; [reflexivity|].
  cbn [open_fds]. apply elem_of_union_l. apply elem_of_singleton. reflexivity.
Qed.

Variable w6 : World.
Hypothesis bind_ok :
  fd_bind (r_n (answer w4 (SysSocket AF_NETROM SOCK_SEQPACKET 0))) la'
    (after_open w4 (SysSocket AF_NETROM SOCK_SEQPACKET 0)
       (r_n (answer w4 (SysSocket AF_NETROM SOCK_SEQPACKET 0)))) =
  (Done None, w6).

(** X19: when connectTimeout fails after a successful bind,
    DialNetROMTimeout closes the socket and returns connectTimeout's error. *)
Theorem DialNetROMTimeout_connect_fails (e : error) (w7 : World) :
  connectTimeout fuel (r_n (answer w4 (SysSocket AF_NETROM SOCK_SEQPACKET 0)))
    ra timeout w6 = (Done (Some e), w7) ->
  DialNetROMTimeout fuel nrPort mycall targetcall timeout w =
    (Done (None, Some e),
     after_close w7 (r_n (answer w4 (SysSocket AF_NETROM SOCK_SEQPACKET 0)))) /\
  r_n (answer w4 (SysSocket AF_NETROM SOCK_SEQPACKET 0)) ∉
    open_fds (after_close w7 (r_n (answer w4 (SysSocket AF_NETROM SOCK_SEQPACKET 0)))).
Proof.
  intros Hc. rewrite DialNetROMTimeout_to_bind.
  unfold bind at 1. rewrite bind_ok. run_world.
  unfold bind at 1. rewrite Hc. run_world.
  split; [reflexivity|].
  unfold after_close. cbn [open_fds]. intros Hin.
  apply elem_of_difference in Hin as [_ Hn].
  apply Hn. apply elem_of_singleton. reflexivity.
Qed.

End Dial.

Lemma DialNetROMTimeout_bind_fails_witness :
  exists w',
    DialNetROMTimeout 1 "radio0" "N0CALL-1" "N0CALL-2" (5 * second)
      (world_of bind_fails_kernel) = (Done (None, Some (Errno EADDRINUSE)), w') /\
    trace w' =
      SysBind (socket_fd bind_fails_kernel) zero_ax25Addr ::
      the_socket :: trace (at_remote bind_fails_kernel) /\
    socket_fd bind_fails_kernel ∈ open_fds w'.
Proof.
  refine (DialNetROMTimeout_bind_fails 1 "radio0" "N0CALL-1" "N0CALL-2"
           (5 * second) (world_of bind_fails_kernel)
           (at_port bind_fails_kernel) (at_local bind_fails_kernel)
           (at_setport bind_fails_kernel) (at_remote bind_fails_kernel)
           (netrom_addr zero_ax25Addr) zero_ax25Addr (netrom_addr zero_ax25Addr)
           _ _ _ _ _ (Errno EADDRINUSE) _); vm_compute; reflexivity.
Defined.

Lemma DialNetROMTimeout_connect_fails_witness :
  DialNetROMTimeout 1 "radio0" "N0CALL-1" "N0CALL-2" (5 * second)
    (world_of (pending_kernel ECONNREFUSED)) =
    (Done (None, Some (Errno ECONNREFUSED)),
     after_close (at_connect (pending_kernel ECONNREFUSED))
       (socket_fd (pending_kernel ECONNREFUSED))) /\
  socket_fd (pending_kernel ECONNREFUSED) ∉
    open_fds (after_close (at_connect (pending_kernel ECONNREFUSED))
                (socket_fd (pending_kernel ECONNREFUSED))).
Proof.
  refine (DialNetROMTimeout_connect_fails 1 "radio0" "N0CALL-1" "N0CALL-2"
           (5 * second) (world_of (pending_kernel ECONNREFUSED))
           (at_port (pending_kernel ECONNREFUSED))
           (at_local (pending_kernel ECONNREFUSED))
           (at_setport (pending_kernel ECONNREFUSED))
           (at_remote (pending_kernel ECONNREFUSED))
           (netrom_addr zero_ax25Addr) zero_ax25Addr (netrom_addr zero_ax25Addr)
           _ _ _ _ _ (at_bind (pending_kernel ECONNREFUSED)) _
           (Errno ECONNREFUSED) (at_connect (pending_kernel ECONNREFUSED)) _);
    vm_compute; reflexivity.
Defined.


Section Listen.
Variables (nrPort mycall : string) (w w1 w2 w3 : World) (la la' : ax25Addr).

Hypothesis port_ok : checkPort nrPort w = (Done None, w1).
Hypothesis local_ok : newNetROMAddr mycall w1 = (Done la, w2).
Hypothesis port_set : setPort la nrPort w2 = (Done (la', None), w3).
Hypothesis socket_ok : r_err (answer w3 the_socket) = None.

(** The run of ListenNetROM up to bind. *)
Lemma ListenNetROM_to_bind :
  ListenNetROM nrPort mycall w =
  bind (fd_bind (r_n (answer w3 the_socket)) la')
    (fun err =>
       if negb (is_nil err) then ret (None, err)
       else
         bind (syscall_Listen (r_n (answer w3 the_socket)) SOMAXCONN)
           (fun err =>
              if negb (is_nil err) then ret (None, err)
              else
                bind make_chan
                  (fun ch =>
                     ret (Some {| ln_sock := r_n (answer w3 the_socket);
                                  ln_localAddr := {| addr := la' |};
                                  ln_close := ch |},
                          None))))
    (after_open w3 the_socket (r_n (answer w3 the_socket))).
Proof.
  unfold answer, after_open, the_socket in *.
  unfold ListenNetROM.
  unfold bind at 1. rewrite port_ok. run_world.
  unfold bind at 1. rewrite local_ok.
  unfold bind at 1. rewrite port_set. run_world.
  unfold bind at 1, syscall_Socket at 1, bind at 1, call at 1.
  rewrite socket_ok. unfold bind at 1, set_open at 1, ret at 1. run_world.
  reflexivity.
Qed.


(** X22: when bind fails, or listen fails after bind, ListenNetROM returns
    that error; the failing call is its last one, so the socket is left
    open, and no channel is made. *)
Theorem ListenNetROM_fails_open (e : error) :
  r_err (answer (after_open w3 the_socket (r_n (answer w3 the_socket)))
           (SysBind (r_n (answer w3 the_socket)) la')) = Some e \/
  (r_err (answer (after_open w3 the_socket (r_n (answer w3 the_socket)))
            (SysBind (r_n (answer w3 the_socket)) la')) = None /\
   r_err (answer
            (after_call (after_open w3 the_socket (r_n (answer w3 the_socket)))
               (SysBind (r_n (answer w3 the_socket)) la'))
            (SysListen (r_n (answer w3 the_socket)) SOMAXCONN)) = Some e) ->
  exists w',
    ListenNetROM nrPort mycall w = (Done (None, Some e), w') /\
    r_n (answer w3 the_socket) ∈ open_fds w' /\
    (trace w' =
       SysBind (r_n (answer w3 the_socket)) la' :: the_socket :: trace w3 \/
     trace w' =
       SysListen (r_n (answer w3 the_socket)) SOMAXCONN ::
       SysBind (r_n (answer w3 the_socket)) la' :: the_socket :: trace w3) /\
    chans w' = chans w3.
Proof.
  intros H. rewrite ListenNetROM_to_bind.
  unfold answer, after_call, after_open in *. cbn [kernel trace] in H.
  unfold fd_bind, syscall_Listen, make_chan, bind, call, ret. run_world.
  destruct H as [Hb|[Hb Hl]].
  - rewrite Hb. run_world. eexists. split; [reflexivity|].
    cbn [chans open_fds trace].
    split; [apply elem_of_union_l; apply elem_of_singleton; reflexivity|].
    split; [left; reflexivity|reflexivity].
  - rewrite Hb. run_world. rewrite Hl. run_world. eexists.
    split; [reflexivity|]. cbn [chans open_fds trace].
    split; [apply elem_of_union_l; apply elem_of_singleton; reflexivity|].
    split; [right; reflexivity|reflexivity].
Qed.
End Listen.


Lemma ListenNetROM_fails_open_witness :
  exists w',
    ListenNetROM "radio0" "N0CALL-1" (world_of (listen_fails_kernel EADDRINUSE)) =
      (Done (None, Some (Errno EADDRINUSE)), w') /\
    r_n (answer (at_setport (listen_fails_kernel EADDRINUSE)) the_socket) ∈
      open_fds w' /\
    (trace w' =
       SysBind (r_n (answer (at_setport (listen_fails_kernel EADDRINUSE)) the_socket))
         zero_ax25Addr ::
       the_socket :: trace (at_setport (listen_fails_kernel EADDRINUSE)) \/
     trace w' =
       SysListen (r_n (answer (at_setport (listen_fails_kernel EADDRINUSE)) the_socket))
         SOMAXCONN ::
       SysBind (r_n (answer (at_setport (listen_fails_kernel EADDRINUSE)) the_socket))
         zero_ax25Addr ::
       the_socket :: trace (at_setport (listen_fails_kernel EADDRINUSE))) /\
    chans w' = chans (at_setport (listen_fails_kernel EADDRINUSE)).
Proof.
  refine (ListenNetROM_fails_open "radio0" "N0CALL-1"
            (world_of (listen_fails_kernel EADDRINUSE))
            (at_port (listen_fails_kernel EADDRINUSE))
            (at_local (listen_fails_kernel EADDRINUSE))
            (at_setport (listen_fails_kernel EADDRINUSE))
            (netrom_addr zero_ax25Addr) zero_ax25Addr
            _ _ _ _ (Errno EADDRINUSE) _);
    [vm_compute; reflexivity.. | right; split; vm_compute; reflexivity].
Defined.

(** ** The listener's wait and accept, the failing paths *)

(** X23: when os.Pipe fails, waitRead returns the pipe error and Accept
    passes it on; nothing but the pipe call is made. *)
Theorem waitRead_pipe_fails (fuel : nat) (ln : netromListener) (w : World)
    (e : error) :
  r_err (wr_pipe w) = Some e ->
  waitRead fuel (ln_sock ln) (ln_close ln) w =
    (Done (Some (SyscallError "pipe" e)), after_call w SysPipe) /\
  netromListener_Accept fuel ln w =
    (Done (None, Some (SyscallError "pipe" e)), after_call w SysPipe).
Proof.
  unfold wr_pipe, after_call. intros He.
  assert (HW : waitRead fuel (ln_sock ln) (ln_close ln) w =
    (Done (Some (SyscallError "pipe" e)),
     {| kernel := kernel w; trace := SysPipe :: trace w;
        open_fds := open_fds w; chans := chans w;
        numNRPorts := numNRPorts w |})).
  { unfold waitRead, os_Pipe, bind, call, ret. rewrite He. reflexivity. }
  split; [exact HW|].
  unfold netromListener_Accept, bind. rewrite HW. reflexivity.
Qed.

Lemma waitRead_pipe_fails_witness :
  waitRead 0 (ln_sock a_listener) (ln_close a_listener)
    (listening_world (pipe_fails_kernel 24)) =
    (Done (Some (SyscallError "pipe" (Errno 24))),
     after_call (listening_world (pipe_fails_kernel 24)) SysPipe) /\
  netromListener_Accept 0 a_listener (listening_world (pipe_fails_kernel 24)) =
    (Done (None, Some (SyscallError "pipe" (Errno 24))),
     after_call (listening_world (pipe_fails_kernel 24)) SysPipe).
Proof.
  apply (waitRead_pipe_fails 0 a_listener
           (listening_world (pipe_fails_kernel 24)) (Errno 24)).
  reflexivity.
Defined.

Section WaitFails.
Variables (fuel : nat) (sock : Z) (cancel : chan) (w : World).
Variables (fdset : FdSet) (maxFd : Z).

Hypothesis pipe_ok : r_err (wr_pipe w) = None.
Hypothesis fdSet_ok :
  fdSet new_FdSet [sock; r_n (wr_pipe w)] = Ret (fdset, maxFd).

(** X24: when select fails (n < 0 or an error), waitRead returns select's
    error, after which the socket is put back to blocking mode and the
    pipe's write end is closed. *)
Theorem waitRead_select_fails :
  r_n (wr_select w sock maxFd fdset) < 0 \/
  r_err (wr_select w sock maxFd fdset) <> None ->
  waitRead (S fuel) sock cancel w =
    (Done (r_err (wr_select w sock maxFd fdset)),
     wr_world_end w sock maxFd fdset).
Proof.
  unfold wr_world_end, wr_trace_end, wr_select, wr_trace_select,
    wr_select_call, wr_pipe in *.
  intros Hf.
  unfold waitRead. run_unfold. run_world.
  rewrite pipe_ok.
  cbn [File_Fd os_NewFile file_fd].
  rewrite fdSet_ok.
  unfold bind, call, ret. run_world.
  assert (Hl : (chans w ++ [false])%list !! length (chans w) = Some false)
    by (apply list_lookup_middle; reflexivity).
  match goal with
  | |- context [(r_n ?r <? 0) || negb (is_nil (r_err ?r))] =>
      assert (Hc : (r_n r <? 0) || negb (is_nil (r_err r)) = true)
  end.
  { destruct Hf as [Hn|He].
    - apply orb_true_iff. left. apply Z.ltb_lt. exact Hn.
    - apply orb_true_iff. right.
      match goal with |- negb (is_nil ?x) = true => destruct x end;
        [reflexivity|contradiction]. }
  rewrite Hc. run_world. rewrite Hl. run_world.
  match goal with
  | |- context [match r_err ?k with _ => _ end] => destruct (r_err k)
  end; reflexivity.
Qed.
End WaitFails.

Lemma waitRead_select_fails_witness :
  waitRead 1 3 (Some 0%nat) (listening_world select_einval_kernel) =
    (Done (r_err (wr_select (listening_world select_einval_kernel) 3 4 (fds_of [3; 4]))),
     wr_world_end (listening_world select_einval_kernel) 3 4 (fds_of [3; 4])).
Proof.
  refine (waitRead_select_fails 0 3 (Some 0%nat)
            (listening_world select_einval_kernel) (fds_of [3; 4]) 4 _ _ _);
    [vm_compute; reflexivity | vm_compute; reflexivity
    | left; vm_compute; reflexivity].
Defined.

Section AcceptFails.
Variables (fuel : nat) (ln : netromListener) (w : World).
Variables (fdset : FdSet) (maxFd : Z).

Hypothesis pipe_ok : r_err (wr_pipe w) = None.
Hypothesis fdSet_ok :
  fdSet new_FdSet [ln_sock ln; r_n (wr_pipe w)] = Ret (fdset, maxFd).
Hypothesis select_n : 0 <= r_n (wr_select w (ln_sock ln) maxFd fdset).
Hypothesis select_err : r_err (wr_select w (ln_sock ln) maxFd fdset) = None.
Hypothesis ready :
  fdIsSet (r_rfds (wr_select w (ln_sock ln) maxFd fdset)) (ln_sock ln) =
  Ret true.

(** X25: when the socket is ready but the kernel's accept fails, Accept
    returns that error and no Conn, and opens no descriptor. *)
Theorem Accept_accept_fails (e : error) :
  r_err (wr_accept w (ln_sock ln) maxFd fdset) = Some e ->
  r_n2 (wr_accept w (ln_sock ln) maxFd fdset) = sizeof_ax25Addr ->
  exists w',
    netromListener_Accept (S fuel) ln w = (Done (None, Some e), w') /\
    open_fds w' = open_fds (wr_world_end w (ln_sock ln) maxFd fdset) /\
    trace w' =
      SysAccept (ln_sock ln) :: wr_trace_end w (ln_sock ln) maxFd fdset.
Proof.
  intros Herr Hlen. unfold netromListener_Accept, bind.
  rewrite (waitRead_run fuel (ln_sock ln) (ln_close ln) w fdset maxFd pipe_ok
             fdSet_ok select_n select_err true ready).
  run_world. unfold wr_accept in *.
  unfold fd_accept, bind, call, set_open, ret, panic.
  unfold wr_world_end. run_world.
  rewrite Herr, Hlen. rewrite Z.eqb_refl. run_world.
  rewrite andb_false_r. run_world.
  eexists. split; [reflexivity|]. split; reflexivity.
Qed.

(** X26: when the kernel's accept hands back another address length than the
    size of the address, Accept panics with "unexpected socklet_t". *)
Theorem Accept_address_length_panics :
  r_n2 (wr_accept w (ln_sock ln) maxFd fdset) <> sizeof_ax25Addr ->
  exists w',
    netromListener_Accept (S fuel) ln w = (Panicked "unexpected socklet_t", w').
Proof.
  intros Hlen. unfold netromListener_Accept, bind.
  rewrite (waitRead_run fuel (ln_sock ln) (ln_close ln) w fdset maxFd pipe_ok
             fdSet_ok select_n select_err true ready).
  run_world. unfold wr_accept in *.
  unfold fd_accept, bind, call, set_open, ret, panic.
  unfold wr_world_end. run_world.
  match goal with
  | |- context [r_n2 ?r =? sizeof_ax25Addr] =>
      destruct (Z.eqb_spec (r_n2 r) sizeof_ax25Addr); [contradiction|]
  end.
  run_world.
  match goal with
  | |- context [if ?c then _ else _] => destruct c
  end; eexists; reflexivity.
Qed.
End AcceptFails.

Lemma Accept_accept_fails_witness :
  exists w',
    netromListener_Accept 1 a_listener (listening_world (accept_fails_kernel 24)) =
      (Done (None, Some (Errno 24)), w') /\
    open_fds w' =
      open_fds (wr_world_end (listening_world (accept_fails_kernel 24))
                  (ln_sock a_listener) 4 (fds_of [3; 4])) /\
    trace w' =
      SysAccept (ln_sock a_listener) ::
      wr_trace_end (listening_world (accept_fails_kernel 24))
        (ln_sock a_listener) 4 (fds_of [3; 4]).
Proof.
  refine (Accept_accept_fails 0 a_listener
            (listening_world (accept_fails_kernel 24)) (fds_of [3; 4]) 4
            _ _ _ _ _ (Errno 24) _ _).
  all: vm_compute.
  all: try reflexivity.
  discriminate.
Defined.

Lemma Accept_address_length_panics_witness :
  exists w',
    netromListener_Accept 1 a_listener (listening_world accept_short_kernel) =
      (Panicked "unexpected socklet_t", w').
Proof.
  refine (Accept_address_length_panics 0 a_listener
            (listening_world accept_short_kernel) (fds_of [3; 4]) 4
            _ _ _ _ _ _).
  all: vm_compute.
  all: try reflexivity.
  all: discriminate.
Defined.

(** X27: on a listener whose channel is open, Close marks the channel
    closed, closes the socket with one close call and returns the error of
    that call. *)
Theorem netromListener_Close_effects (ln : netromListener) (w : World)
    (i : nat) :
  ln_close ln = Some i ->
  chans w !! i = Some false ->
  exists w',
    netromListener_Close ln w =
      (Done (r_err (answer w (SysClose (ln_sock ln)))), w') /\
    chans w' !! i = Some true /\
    ~ (ln_sock ln ∈ open_fds w') /\
    trace w' = SysClose (ln_sock ln) :: trace w.
Proof.
  intros Hch Hopen.
  unfold netromListener_Close, answer. run_unfold.
  rewrite Hch, Hopen. run_world.
  eexists. split; [reflexivity|]. cbn [chans open_fds trace].
  split; [apply list_lookup_insert_eq; apply lookup_lt_Some in Hopen; exact Hopen|].
  split; [|reflexivity].
  intros Hin. apply elem_of_difference in Hin as [_ Hn].
  apply Hn. apply elem_of_singleton. reflexivity.
Qed.

Lemma netromListener_Close_effects_witness :
  exists w',
    netromListener_Close a_listener (listening_world good_kernel) =
      (Done (r_err (answer (listening_world good_kernel)
                      (SysClose (ln_sock a_listener)))), w') /\
    chans w' !! 0%nat = Some true /\
    ~ (ln_sock a_listener ∈ open_fds w') /\
    trace w' = SysClose (ln_sock a_listener) :: trace (listening_world good_kernel).
Proof.
  apply (netromListener_Close_effects a_listener (listening_world good_kernel) 0%nat);
    reflexivity.
Defined.

Lemma netromListener_Close_nil_channel (ln : netromListener) (w : World) :
  ln_close ln = None ->
  netromListener_Close ln w = (Panicked "close of nil channel", w).
Proof.
  intros Hch. unfold netromListener_Close. run_unfold. rewrite Hch. reflexivity.
Qed.

(** ** Addresses as text, and beacons *)

(** X28: when libax25 renders the call sign of an address as the text of a
    valid Address, the Address method returns that Address and the String
    method returns that text. *)
Theorem NetROMAddr_String_normalized (a : NetROMAddr) (a0 : Address)
    (w : World) :
  has_dash (Call a0) = false ->
  0 <= SSID a0 <= 255 ->
  r_str (answer w (LibNtoa (sax25_call (addr a)))) = Address_String a0 ->
  ax25Addr_Address (addr a) w =
    (Done a0, after_call w (LibNtoa (sax25_call (addr a)))) /\
  NetROMAddr_String a w =
    (Done (Address_String a0), after_call w (LibNtoa (sax25_call (addr a)))).
Proof.
  unfold answer, after_call. intros Hc Hs Ht.
  assert (HA : ax25Addr_Address (addr a) w =
    (Done a0,
     {| kernel := kernel w; trace := LibNtoa (sax25_call (addr a)) :: trace w;
        open_fds := open_fds w; chans := chans w;
        numNRPorts := numNRPorts w |})).
  { unfold ax25Addr_Address, bind, call, lift. rewrite Ht.
    rewrite (AddressFromString_of_String a0 Hc Hs). reflexivity. }
  split; [exact HA|].
  unfold NetROMAddr_String, bind. rewrite HA. reflexivity.
Qed.

Lemma NetROMAddr_String_normalized_witness :
  ax25Addr_Address (addr {| addr := peer_addr |}) (world_of (ntoa_kernel "N0CALL-2")) =
    (Done {| Call := "N0CALL"; SSID := 2 |},
     after_call (world_of (ntoa_kernel "N0CALL-2"))
       (LibNtoa (sax25_call (addr {| addr := peer_addr |})))) /\
  NetROMAddr_String {| addr := peer_addr |} (world_of (ntoa_kernel "N0CALL-2")) =
    (Done (Address_String {| Call := "N0CALL"; SSID := 2 |}),
     after_call (world_of (ntoa_kernel "N0CALL-2"))
       (LibNtoa (sax25_call (addr {| addr := peer_addr |})))).
Proof.
  apply (NetROMAddr_String_normalized {| addr := peer_addr |}
           {| Call := "N0CALL"; SSID := 2 |} (world_of (ntoa_kernel "N0CALL-2")));
    [reflexivity | cbn; lia | reflexivity].
Defined.

(** Whatever libax25 renders, the text of an address is produced without
    panic and carries no "-0". *)
Lemma NetROMAddr_String_total (a : NetROMAddr) (w : World) :
  exists ad,
    NetROMAddr_String a w =
      (Done (Address_String ad), after_call w (LibNtoa (sax25_call (addr a)))) /\
    Call ad = before_dash (r_str (answer w (LibNtoa (sax25_call (addr a))))) /\
    0 <= SSID ad <= 255 /\
    (SSID ad = 0 -> Address_String ad = Call ad).
Proof.
  unfold NetROMAddr_String, ax25Addr_Address, answer, after_call, bind, call,
    lift, ret.
  rewrite AddressFromString_eq. eexists. split; [reflexivity|].
  cbn [Call SSID]. split; [reflexivity|]. split.
  - destruct (SSID_field _); [apply parsed_SSID_range|lia].
  - intros Hz. unfold Address_String. cbn [Call SSID]. rewrite Hz. reflexivity.
Qed.

Lemma NewNetROMBeacon_opens_nothing (nrPort mycall dest message : string)
    (w : World) :
  open_fds (snd (NewNetROMBeacon nrPort mycall dest message w)) = open_fds w /\
  chans (snd (NewNetROMBeacon nrPort mycall dest message w)) = chans w /\
  fst (NewNetROMBeacon nrPort mycall dest message w) <> NoFuel.
Proof.
  unfold NewNetROMBeacon, checkPort, loadPorts, portExists, newNetROMAddr,
    setPort, get_numNRPorts, set_numNRPorts. run_unfold.
  destruct (nrPort =? "")%string; run_world;
    [repeat split; discriminate|].
  repeat match goal with
         | |- context [if ?c then _ else _] => destruct c; run_world
         | |- context [match r_err ?r with _ => _ end] =>
             destruct (r_err r); run_world
         end;
    cbn; repeat split; discriminate.
Qed.

Section Beacon.
Variables (nrPort mycall dest message : string).
Variables (w w1 w2 w3 w4 : World) (la la' ra : ax25Addr).

Hypothesis port_ok : checkPort nrPort w = (Done None, w1).
Hypothesis local_ok : newNetROMAddr mycall w1 = (Done la, w2).
Hypothesis port_set : setPort la nrPort w2 = (Done (la', None), w3).
Hypothesis remote_ok : newNetROMAddr dest w3 = (Done ra, w4).

End Beacon.


(** X30: waitRead never takes a second turn of its wait loop: one turn of
    fuel is enough whatever the kernel answers, and select is called at most
    once. *)
Theorem waitRead_one_wait (fuel : nat) (sock : Z) (cancel : chan) (w : World) :
  waitRead (S fuel) sock cancel w = waitRead 1 sock cancel w /\
  fst (waitRead (S fuel) sock cancel w) <> NoFuel /\
  (count_selects (trace (snd (waitRead (S fuel) sock cancel w))) <=
   S (count_selects (trace w)))%nat.
Proof.
  unfold count_selects, waitRead. run_unfold. run_world.
  destruct (r_err (kernel w (trace w) SysPipe)); run_world;
    [cbn; repeat split; [discriminate|lia]|].
  cbn [File_Fd os_NewFile file_fd].
  assert (Hl : (chans w ++ [false])%list !! length (chans w) = Some false)
    by (apply list_lookup_middle; reflexivity).
  destruct (fdSet new_FdSet [sock; r_n (kernel w (trace w) SysPipe)])
    as [[fdset maxFd]|msg]; run_world.
  - unfold bind, call, ret. run_world.
    repeat match goal with
           | |- context [if ?c then _ else _] => destruct c; run_world
           | |- context [match fdIsSet ?p ?i with _ => _ end] =>
               destruct (fdIsSet p i) as [[|]|?]; run_world
           end;
      rewrite ?Hl; run_world;
      repeat match goal with
             | |- context [match r_err ?k with _ => _ end] =>
                 destruct (r_err k); run_world
             end;
      cbn; repeat split; try discriminate; lia.
  - rewrite Hl. run_world.
    repeat match goal with
           | |- context [match r_err ?k with _ => _ end] =>
               destruct (r_err k); run_world
           end;
      cbn; repeat split; try discriminate; lia.
Qed.
